(** * The SOCKS5 client tunnel of shadowsocksr-native: [src/client/client.c]

    A shallow embedding of the per-connection stage machine that
    [client.c] implements on top of the tunnel shim, and the properties of
    it that the design document states.

    Layout of the development:
    - bytes, C integer conversions and the address record [init_pkg];
    - the structures of [client.c] ([socket_ctx], [client_ctx],
      [tunnel_ctx]) and the collaborators the file calls but does not
      define, gathered in the class [Collaborators];
    - a state-and-fault monad with an event trace, in which the stage
      dispatcher [do_next], the handlers it runs and the callbacks of the
      TLS transport are transcribed, with the teardown in [tunnel_dying]
      (the registry of tunnels is left out: no property below reads it;
      messages to the log are not events);
    - the theorems. *)

From Stdlib Require Import String.
From Stdlib Require Import ZArith List Bool Lia.
From Stdlib Require Import Init.Byte Strings.Byte.
Import ListNotations.

Local Open Scope Z_scope.

(** ** Bytes and C integer conversions *)

(** The cast [(uint8_t)z]: reduction modulo 256. *)
Definition uint8 (z : Z) : byte :=
  match Byte.of_N (Z.to_N (z mod 256)) with
  | Some b => b
  | None => x00
  end.

(** The numeric value of a byte. *)
Definition byte_val (b : byte) : Z := Z.of_N (Byte.to_N b).

(** The two bytes that [*((unsigned short * )iter) = htons(port)] leaves in
    memory: network byte order, most significant byte first, whatever the
    byte order of the host. *)
Definition htons_bytes (port : Z) : list byte :=
  [uint8 (Z.shiftr port 8); uint8 port].

(** [ntohl] of a 32-bit word found in memory as four bytes. *)
Definition ntohl_bytes (bs : list byte) : Z :=
  fold_left (fun acc b => Z.lor (Z.shiftl acc 8) (byte_val b)) (firstn 4 bs) 0.

(** [strlen]: the number of bytes before the first NUL.  On an array that
    holds no NUL the C function reads past the end; the model stops at the
    end of the list. *)
Fixpoint strlen (s : list byte) : nat :=
  match s with
  | [] => O
  | b :: s' => if Byte.eqb b x00 then O else S (strlen s')
  end.

(** The first [len] bytes of an array, for a length [len] that is a
    [size_t].  As for [strlen], a length beyond the array stops at its end
    in the model, where the C code reads on. *)
Definition take (len : Z) (data : list byte) : list byte :=
  if Z.of_nat (length data) <=? len then data
  else firstn (Z.to_nat len) data.

(** ** The SOCKS5 parser context, as far as [client.c] reads it *)

Inductive s5_atyp := s5_atyp_ipv4 | s5_atyp_ipv6 | s5_atyp_host.

Inductive s5_cmd := s5_cmd_tcp_connect | s5_cmd_tcp_bind | s5_cmd_udp_assoc.

(** The numeric value of the enumerators, the address-type octets of
    RFC 1928 ([s5.h] is not part of the sources under study). *)
Definition s5_atyp_code (a : s5_atyp) : Z :=
  match a with
  | s5_atyp_ipv4 => 1
  | s5_atyp_ipv6 => 4
  | s5_atyp_host => 3
  end.

(** [s5_ctx]: [client.c] reads [cmd], [atyp], [daddr] and [dport].
    [s5_private] stands for the rest of the structure (the automaton state
    of the parser, the methods the client offered, ...), which only the
    parser itself reads. *)
Record s5_ctx := mk_s5_ctx {
  cmd : s5_cmd;
  atyp : s5_atyp;
  daddr : list byte;
  dport : Z;
  s5_private : Z
}.

(** ** [initial_package_create] *)

(** The function fills a fresh buffer through the moving pointer [iter] and
    sets [buffer->len = iter - buffer->buffer]; the model returns the bytes
    written, in order.  The [default: ASSERT(0)] arm of the [switch] has no
    counterpart: [s5_atyp] has the three enumerators only. *)
Definition initial_package_create (parser : s5_ctx) : list byte :=
  let head := [uint8 (s5_atyp_code (atyp parser))] in
  let body :=
    match atyp parser with
    | s5_atyp_ipv4 => firstn 4 (daddr parser)
    | s5_atyp_ipv6 => firstn 16 (daddr parser)
    | s5_atyp_host =>
        let len := uint8 (Z.of_nat (strlen (daddr parser))) in
        len :: firstn (Z.to_nat (byte_val len)) (daddr parser)
    end in
  head ++ body ++ htons_bytes (dport parser).

(** ** The address record, read back *)

(** Modelled from the spec: the layout of the address record, section 4.4,
    [atyp(1) || [ ipv4(4) | ipv6(16) | len(1) host(len) ] || port(2, big-endian)],
    written down for a destination triple. *)
Definition address_record (a : s5_atyp) (addr : list byte) (port : Z) : list byte :=
  match a with
  | s5_atyp_host => uint8 (s5_atyp_code a) :: uint8 (Z.of_nat (length addr)) :: addr
  | _ => uint8 (s5_atyp_code a) :: addr
  end ++ [uint8 (port / 256); uint8 (port mod 256)].

Definition s5_atyp_of_byte (b : byte) : option s5_atyp :=
  if byte_val b =? 1 then Some s5_atyp_ipv4
  else if byte_val b =? 4 then Some s5_atyp_ipv6
  else if byte_val b =? 3 then Some s5_atyp_host
  else None.

(** The port that closes a record: exactly two bytes, big-endian. *)
Definition parse_port (bs : list byte) : option Z :=
  match bs with
  | [hi; lo] => Some (256 * byte_val hi + byte_val lo)
  | _ => None
  end.

Definition parse_fixed (a : s5_atyp) (n : nat) (bs : list byte)
  : option (s5_atyp * list byte * Z) :=
  if (length bs <? n)%nat then None
  else option_map (fun port => (a, firstn n bs, port)) (parse_port (skipn n bs)).

(** Modelled from the spec: the reader of the address record, the inverse
    direction of section 4.4 that property P6 calls re-parsing (the parser
    of the record, [socks5_address_parse], is not part of the sources under
    study).  It accepts a record only when it is consumed whole. *)
Definition address_record_parse (bs : list byte) : option (s5_atyp * list byte * Z) :=
  match bs with
  | [] => None
  | t :: rest =>
      match s5_atyp_of_byte t with
      | None => None
      | Some s5_atyp_ipv4 => parse_fixed s5_atyp_ipv4 4 rest
      | Some s5_atyp_ipv6 => parse_fixed s5_atyp_ipv6 16 rest
      | Some s5_atyp_host =>
          match rest with
          | [] => None
          | l :: rest' => parse_fixed s5_atyp_host (Z.to_nat (byte_val l)) rest'
          end
      end
  end.

(** A destination triple that the wire format can carry: an address of the
    size of its type (a host name is a C string of at most 255 bytes) and a
    16-bit port. *)
Definition valid_destination (a : s5_atyp) (addr : list byte) (port : Z) : bool :=
  (0 <=? port) && (port <? 65536) &&
  match a with
  | s5_atyp_ipv4 => (length addr =? 4)%nat
  | s5_atyp_ipv6 => (length addr =? 16)%nat
  | s5_atyp_host =>
      (length addr <=? 255)%nat && forallb (fun b => negb (Byte.eqb b x00)) addr
  end.

(** The parser context holds the triple: the address sits at the start of
    [daddr], a host name NUL-terminated, as the SOCKS5 parser leaves it. *)
Definition holds_destination (p : s5_ctx) (a : s5_atyp) (addr : list byte) (port : Z) : Prop :=
  atyp p = a /\ dport p = port /\
  exists rest,
    daddr p = addr ++ match a with s5_atyp_host => x00 :: rest | _ => rest end.

(** ** Sockets, addresses and configuration *)

(** The states of the read and the write machine of a socket (the comment
    that opens [client.c]). *)
Inductive socket_state := socket_stop | socket_busy | socket_done | socket_dead.

Definition socket_state_eqb (a b : socket_state) : bool :=
  match a, b with
  | socket_stop, socket_stop | socket_busy, socket_busy
  | socket_done, socket_done | socket_dead, socket_dead => true
  | _, _ => false
  end.

(** [union sockaddr_universal], tagged by [sa_family].  An address is kept
    as the bytes of [sin_addr] / [sin6_addr] as they lie in memory (network
    order), a port as its number. *)
Inductive sockaddr_universal :=
| sockaddr_in (sin_addr : list byte) (sin_port : Z)
| sockaddr_in6 (sin6_addr : list byte) (sin6_port : Z)
| sockaddr_other (sa_family : Z).

(** The two sockets of a tunnel; [tunnel->incoming] and [tunnel->outgoing]
    are the only [socket_ctx] pointers [client.c] handles. *)
Inductive sock_id := Incoming | Outgoing.

Definition sock_id_eqb (a b : sock_id) : bool :=
  match a, b with
  | Incoming, Incoming | Outgoing, Outgoing => true
  | _, _ => false
  end.

Record socket_ctx := mk_socket_ctx {
  rdstate : socket_state;
  wrstate : socket_state;
  result : Z;
  buf : list byte;
  addr : sockaddr_universal
}.

Record server_config := mk_server_config {
  over_tls_enable : bool;
  remote_host : String.string;
  remote_port : Z;
  listen_host : String.string;
  listen_port : Z;
  udp : bool
}.

Inductive tunnel_stage :=
| tunnel_stage_handshake
| tunnel_stage_handshake_auth
| tunnel_stage_handshake_replied
| tunnel_stage_s5_request
| tunnel_stage_s5_udp_accoc
| tunnel_stage_tls_connecting
| tunnel_stage_tls_first_package
| tunnel_stage_tls_streaming
| tunnel_stage_resolve_ssr_server_host_done
| tunnel_stage_connecting_ssr_server
| tunnel_stage_ssr_auth_sent
| tunnel_stage_ssr_waiting_feedback
| tunnel_stage_ssr_receipt_of_feedback_sent
| tunnel_stage_auth_complition_done
| tunnel_stage_streaming
| tunnel_stage_kill.

(** Modelled from the spec: the status codes of the SOCKS5 parser, section
    4.2 ([s5.h] is not part of the sources under study): need-more is
    [s5_ok], then auth-select and exec-cmd; any other value is a parse
    error. *)
Inductive s5_err :=
| s5_ok
| s5_auth_select
| s5_exec_cmd
| s5_parse_error (code : Z).

Inductive ssr_error :=
| ssr_ok
| ssr_error_client_decode
| ssr_error_code (code : Z).

Definition is_ssr_ok (e : ssr_error) : bool :=
  match e with ssr_ok => true | _ => false end.

(** [struct buffer_t]: the heap block that holds it, and the [len] bytes
    in use. *)
Record buffer_t := mk_buffer_t {
  block : nat;
  buffer : list byte
}.

Definition len (b : buffer_t) : Z := Z.of_nat (length (buffer b)).

(** What [socks5_address_parse] leaves in [tunnel->desired_addr]. *)
Definition socks5_address := option (s5_atyp * list byte * Z).

(** ** The collaborators *)

(** Everything [client.c] uses and does not define: build parameters, the
    enumerators and functions of the SOCKS5 parser, the cipher with its
    plugins (a table of function pointers in the source), address
    conversion and the value [socket_connect] returns.  A function that
    updates an object in place returns the updated object. *)
Class Collaborators := {
  (** whether the build defines [NDEBUG] *)
  NDEBUG : bool;
  (** the width of [size_t] *)
  size_t_bits : Z;
  SSR_BUFF_SIZE : Z;
  s5_auth_none : Z;
  s5_auth_passwd : Z;
  (** [s5_parse(parser, &data, &size)]: the status, the parser and the
      size that is left *)
  s5_parse : s5_ctx -> list byte -> Z -> s5_err * s5_ctx * Z;
  s5_auth_methods : s5_ctx -> Z;
  s5_select_auth : s5_ctx -> Z -> s5_ctx;
  socks5_address_parse : list byte -> Z -> socks5_address -> socks5_address;
  cipher_ctx : Type;
  tunnel_cipher_create : server_config -> Z -> cipher_ctx;
  (** [info->buffer_size = ...; info->head_len = ...] on the server info
      of the protocol plugin, or else of the obfs plugin, or nothing *)
  set_server_info : cipher_ctx -> Z -> Z -> cipher_ctx;
  get_s5_head_size : list byte -> Z -> Z -> Z;
  tunnel_cipher_client_encrypt :
    cipher_ctx -> list byte -> ssr_error * cipher_ctx * list byte;
  tunnel_cipher_client_decrypt :
    cipher_ctx -> list byte -> ssr_error * cipher_ctx * list byte * option (list byte);
  tunnel_cipher_client_need_feedback : cipher_ctx -> bool;
  convert_universal_address : String.string -> Z -> option sockaddr_universal;
  (** the value [socket_connect] returns for a socket *)
  socket_connect_status : socket_ctx -> Z;
  build_udp_assoc_package :
    bool -> String.string -> Z -> list byte -> Z -> list byte
}.

(** ** Events *)

(** Where the bytes given to a write lie. *)
Inductive source :=
| string_literal
| heap_block (b : nat).

(** The objects of a tunnel that [tunnel_dying] releases and that are not
    buffers: the cipher, the parser and the context itself. *)
Inductive object := obj_cipher | obj_parser | obj_client_ctx.

(** The calls that leave [client.c], in the order they are made, the
    allocations and releases of the buffers it hands to them, and the
    releases of the objects of the tunnel. *)
Inductive event :=
| ev_socket_read (s : sock_id) (check_timeout : bool)
| ev_socket_write (s : sock_id) (src : source) (bytes : list byte)
| ev_socket_connect (s : sock_id) (a : sockaddr_universal)
| ev_socket_getaddrinfo (s : sock_id) (host : String.string)
| ev_tunnel_shutdown
| ev_tls_client_launch
| ev_tls_client_shutdown
| ev_tls_send_data (src : source) (bytes : list byte)
| ev_traditional_streaming (s : sock_id)
| ev_socks5_address_parse (offset : Z) (length : Z)
| ev_alloc (b : nat)
| ev_free (b : nat)
| ev_release (o : object).

Inductive fault :=
| assertion_failed
| unreachable_reached
| null_dereference.

(** Over the events of one handler, during which no write completes:
    whether every heap block given to a write is still unreleased at the
    end.  [queued] are the blocks given to the writes so far. *)
Fixpoint sources_held (queued : list nat) (evs : list event) : bool :=
  match evs with
  | [] => true
  | ev_socket_write _ (heap_block b) _ :: rest => sources_held (b :: queued) rest
  | ev_free b :: rest => negb (existsb (Nat.eqb b) queued) && sources_held queued rest
  | _ :: rest => sources_held queued rest
  end.

Section Tunnel.

Context {X : Collaborators}.

(** ** The tunnel *)

(** [struct tunnel_ctx] together with the [struct client_ctx] that
    [tunnel->data] points to and the configuration reached through
    [ctx->env->config], in one record.  [trace] and [next_block] are not
    fields of the source: the events so far, and the next unused heap
    block. *)
Record tunnel_ctx := mk_tunnel_ctx {
  incoming : socket_ctx;
  outgoing : socket_ctx;
  desired_addr : socks5_address;
  cipher : option cipher_ctx;
  init_pkg : option buffer_t;
  parser : s5_ctx;
  stage : tunnel_stage;
  config : server_config;
  trace : list event;
  next_block : nat
}.

Definition socket_of (s : sock_id) (t : tunnel_ctx) : socket_ctx :=
  match s with Incoming => incoming t | Outgoing => outgoing t end.

Definition set_incoming (v : socket_ctx) (t : tunnel_ctx) : tunnel_ctx :=
  mk_tunnel_ctx v (outgoing t) (desired_addr t) (cipher t) (init_pkg t)
    (parser t) (stage t) (config t) (trace t) (next_block t).

Definition set_outgoing (v : socket_ctx) (t : tunnel_ctx) : tunnel_ctx :=
  mk_tunnel_ctx (incoming t) v (desired_addr t) (cipher t) (init_pkg t)
    (parser t) (stage t) (config t) (trace t) (next_block t).

Definition set_desired_addr (v : socks5_address) (t : tunnel_ctx) : tunnel_ctx :=
  mk_tunnel_ctx (incoming t) (outgoing t) v (cipher t) (init_pkg t)
    (parser t) (stage t) (config t) (trace t) (next_block t).

Definition set_cipher (v : option cipher_ctx) (t : tunnel_ctx) : tunnel_ctx :=
  mk_tunnel_ctx (incoming t) (outgoing t) (desired_addr t) v (init_pkg t)
    (parser t) (stage t) (config t) (trace t) (next_block t).

Definition set_init_pkg (v : option buffer_t) (t : tunnel_ctx) : tunnel_ctx :=
  mk_tunnel_ctx (incoming t) (outgoing t) (desired_addr t) (cipher t) v
    (parser t) (stage t) (config t) (trace t) (next_block t).

Definition set_parser (v : s5_ctx) (t : tunnel_ctx) : tunnel_ctx :=
  mk_tunnel_ctx (incoming t) (outgoing t) (desired_addr t) (cipher t)
    (init_pkg t) v (stage t) (config t) (trace t) (next_block t).

Definition set_stage (v : tunnel_stage) (t : tunnel_ctx) : tunnel_ctx :=
  mk_tunnel_ctx (incoming t) (outgoing t) (desired_addr t) (cipher t)
    (init_pkg t) (parser t) v (config t) (trace t) (next_block t).

Definition set_trace (v : list event) (t : tunnel_ctx) : tunnel_ctx :=
  mk_tunnel_ctx (incoming t) (outgoing t) (desired_addr t) (cipher t)
    (init_pkg t) (parser t) (stage t) (config t) v (next_block t).

Definition set_next_block (v : nat) (t : tunnel_ctx) : tunnel_ctx :=
  mk_tunnel_ctx (incoming t) (outgoing t) (desired_addr t) (cipher t)
    (init_pkg t) (parser t) (stage t) (config t) (trace t) v.

Definition set_rdstate (v : socket_state) (c : socket_ctx) : socket_ctx :=
  mk_socket_ctx v (wrstate c) (result c) (buf c) (addr c).

Definition set_wrstate (v : socket_state) (c : socket_ctx) : socket_ctx :=
  mk_socket_ctx (rdstate c) v (result c) (buf c) (addr c).

Definition set_addr (v : sockaddr_universal) (c : socket_ctx) : socket_ctx :=
  mk_socket_ctx (rdstate c) (wrstate c) (result c) (buf c) v.

Definition set_socket (s : sock_id) (v : socket_ctx) (t : tunnel_ctx) : tunnel_ctx :=
  match s with Incoming => set_incoming v t | Outgoing => set_outgoing v t end.

(** ** The monad: state, faults and the trace *)

Inductive outcome (A : Type) :=
| Ok (a : A) (t : tunnel_ctx)
| Fault (f : fault) (t : tunnel_ctx).

Arguments Ok {A} a t.
Arguments Fault {A} f t.

Definition M (A : Type) := tunnel_ctx -> outcome A.

Definition ret {A} (a : A) : M A := fun t => Ok a t.

Definition bind {A B} (m : M A) (k : A -> M B) : M B :=
  fun t => match m t with
           | Ok a t' => k a t'
           | Fault f t' => Fault f t'
           end.

Notation "x <- m ;; k" := (bind m (fun x => k))
  (at level 61, m at next level, right associativity).
Notation "m ;; k" := (bind m (fun _ => k))
  (at level 61, right associativity).

Definition get : M tunnel_ctx := fun t => Ok t t.

Definition modify (f : tunnel_ctx -> tunnel_ctx) : M unit := fun t => Ok tt (f t).

Definition emit (e : event) : M unit :=
  modify (fun t => set_trace (trace t ++ [e]) t).

Definition raise {A} (f : fault) : M A := fun t => Fault f t.

(** Modelled from the spec: the macro [ASSERT] ([defs.h] is not part of the
    sources under study): a violated precondition triggers an assertion
    (section 4.3 and P2) and the handler goes no further. *)
Definition ASSERT (b : bool) : M unit :=
  if b then ret tt else raise assertion_failed.

Definition UNREACHABLE : M unit := raise unreachable_reached.

(** The macro [assert] of [<assert.h>]: as [ASSERT] in a debug build,
    nothing at all in a build that defines [NDEBUG]. *)
Definition assert (b : bool) : M unit :=
  if NDEBUG then ret tt else ASSERT b.

(** The tunnel an outcome ends in. *)
Definition final {A} (o : outcome A) : tunnel_ctx :=
  match o with Ok _ t => t | Fault _ t => t end.

(** *** The shim and the allocator, as events *)

Definition socket_read (s : sock_id) (check_timeout : bool) : M unit :=
  emit (ev_socket_read s check_timeout).

Definition socket_write (s : sock_id) (src : source) (bytes : list byte) : M unit :=
  emit (ev_socket_write s src bytes).

Definition socket_getaddrinfo (s : sock_id) (host : String.string) : M unit :=
  emit (ev_socket_getaddrinfo s host).

(** [socket_connect] uses the address the socket holds at the call. *)
Definition socket_connect (s : sock_id) : M Z :=
  t <- get ;;
  emit (ev_socket_connect s (addr (socket_of s t))) ;;
  ret (socket_connect_status (socket_of s t)).

Definition tunnel_shutdown : M unit := emit ev_tunnel_shutdown.
Definition tls_client_launch : M unit := emit ev_tls_client_launch.
Definition tls_client_shutdown : M unit := emit ev_tls_client_shutdown.

Definition tunnel_tls_send_data (src : source) (bytes : list byte) : M unit :=
  emit (ev_tls_send_data src bytes).

Definition tunnel_traditional_streaming (s : sock_id) : M unit :=
  emit (ev_traditional_streaming s).

(** A fresh heap block: [calloc], [malloc], [buffer_create],
    [buffer_clone], [buffer_create_from], and the buffers a collaborator
    allocates for its caller. *)
Definition allocate : M nat :=
  t <- get ;;
  modify (set_next_block (S (next_block t))) ;;
  emit (ev_alloc (next_block t)) ;;
  ret (next_block t).

(** [free] and [buffer_release]. *)
Definition release (b : nat) : M unit := emit (ev_free b).

Definition buffer_create_from (bytes : list byte) : M buffer_t :=
  b <- allocate ;; ret (mk_buffer_t b bytes).

Definition buffer_clone (src : buffer_t) : M buffer_t :=
  b <- allocate ;; ret (mk_buffer_t b (buffer src)).

(** Following a pointer of [client_ctx] that may be [NULL]. *)
Definition deref {A} (o : option A) : M A :=
  match o with Some a => ret a | None => raise null_dereference end.

(** The four assertions that open most handlers. *)
Definition assert_all_stop : M unit :=
  t <- get ;;
  ASSERT (socket_state_eqb (rdstate (incoming t)) socket_stop) ;;
  ASSERT (socket_state_eqb (wrstate (incoming t)) socket_stop) ;;
  ASSERT (socket_state_eqb (rdstate (outgoing t)) socket_stop) ;;
  ASSERT (socket_state_eqb (wrstate (outgoing t)) socket_stop).

(** The two assertions on [incoming] alone. *)
Definition assert_incoming_stop : M unit :=
  t <- get ;;
  ASSERT (socket_state_eqb (rdstate (incoming t)) socket_stop) ;;
  ASSERT (socket_state_eqb (wrstate (incoming t)) socket_stop).

(** [a - b] in [size_t]. *)
Definition size_t_sub (a b : Z) : Z := (a - b) mod 2 ^ size_t_bits.

(** The cast [(size_t)z]: a negative [z] wraps to [2 ^ size_t_bits + z]. *)
Definition size_t_cast (z : Z) : Z := z mod 2 ^ size_t_bits.

(** ** The access policy *)

Definition can_auth_none : bool := true.

Definition can_auth_passwd : bool := false.

(** [can_access]; the listener and the tunnel, which the function does not
    read, are left out. *)
Definition can_access (a : sockaddr_universal) : bool :=
  if negb NDEBUG then true
  else
    match a with
    | sockaddr_in sin_addr _ =>
        let d := ntohl_bytes sin_addr in
        negb (Z.shiftr d 24 =? 0x7F)
    | sockaddr_in6 sin6_addr _ =>
        let a := ntohl_bytes sin6_addr in
        let b := ntohl_bytes (skipn 4 sin6_addr) in
        let c := ntohl_bytes (skipn 8 sin6_addr) in
        let d := ntohl_bytes (skipn 12 sin6_addr) in
        if (a =? 0) && (b =? 0) && (c =? 0) && (d =? 1) then false
        else if (a =? 0) && (b =? 0) && (c =? 0xFFFF) && (Z.shiftr d 24 =? 0x7F)
        then false
        else true
    | sockaddr_other _ => false
    end.

(** The replies that the source writes from string literals. *)
Definition reply_no_auth : list byte := [x05; x00].
Definition reply_no_acceptable_auth : list byte := [x05; xff].
Definition reply_host_unreachable : list byte :=
  [x05; x04; x00; x01; x00; x00; x00; x00; x00; x00].
Definition reply_not_allowed : list byte :=
  [x05; x02; x00; x01; x00; x00; x00; x00; x00; x00].
Definition reply_connection_refused : list byte :=
  [x05; x05; x00; x01; x00; x00; x00; x00; x00; x00].

(** ** The handlers of [client.c] *)

(** [init_done_cb]: the tunnel as the listener hands it over, [calloc]ed
    context, parser initialised ([s5_init] leaves [parser0]), no cipher, no
    [init_pkg], stage handshake. *)
Definition init_done_cb (inc out : socket_ctx) (parser0 : s5_ctx)
    (cfg : server_config) : tunnel_ctx :=
  mk_tunnel_ctx inc out None None None parser0 tunnel_stage_handshake cfg [] O.

Definition do_handshake : M unit :=
  assert_incoming_stop ;;
  t <- get ;;
  if result (incoming t) <? 0 then
    tunnel_shutdown
  else
    let data := buf (incoming t) in
    let size := result (incoming t) in
    let '(err, parser', size') := s5_parse (parser t) data size in
    modify (set_parser parser') ;;
    match err with
    | s5_ok =>
        socket_read Incoming true ;;
        modify (set_stage tunnel_stage_handshake)
    | _ =>
        if negb (size' =? 0) then
          tunnel_shutdown
        else
          match err with
          | s5_auth_select =>
              let methods := s5_auth_methods parser' in
              if negb (Z.land methods s5_auth_none =? 0) && can_auth_none then
                modify (set_parser (s5_select_auth parser' s5_auth_none)) ;;
                socket_write Incoming string_literal reply_no_auth ;;
                modify (set_stage tunnel_stage_handshake_replied)
              else if negb (Z.land methods s5_auth_passwd =? 0) && can_auth_passwd then
                tunnel_shutdown
              else
                socket_write Incoming string_literal reply_no_acceptable_auth ;;
                modify (set_stage tunnel_stage_kill)
          | _ => tunnel_shutdown
          end
    end.

Definition do_handshake_auth : M unit :=
  UNREACHABLE ;;
  tunnel_shutdown.

Definition do_wait_s5_request : M unit :=
  assert_incoming_stop ;;
  t <- get ;;
  if result (incoming t) <? 0 then
    tunnel_shutdown
  else
    socket_read Incoming true ;;
    modify (set_stage tunnel_stage_s5_request).

Definition do_connect_ssr_server : M unit :=
  assert_all_stop ;;
  t <- get ;;
  if negb (can_access (addr (outgoing t))) then
    socket_write Incoming string_literal reply_not_allowed ;;
    modify (set_stage tunnel_stage_kill)
  else
    err <- socket_connect Outgoing ;;
    if negb (err =? 0) then
      tunnel_shutdown
    else
      modify (set_stage tunnel_stage_connecting_ssr_server).

Definition do_parse_s5_request : M unit :=
  assert_all_stop ;;
  t <- get ;;
  if result (incoming t) <? 0 then
    tunnel_shutdown
  else
    let data := buf (incoming t) in
    let size := result (incoming t) in
    emit (ev_socks5_address_parse 3 (size_t_sub size 3)) ;;
    modify (set_desired_addr
              (socks5_address_parse (skipn 3 data) (size_t_sub size 3) (desired_addr t))) ;;
    let '(err, parser', size') := s5_parse (parser t) data size in
    modify (set_parser parser') ;;
    match err with
    | s5_ok =>
        socket_read Incoming true ;;
        modify (set_stage tunnel_stage_s5_request)
    | _ =>
        if negb (size' =? 0) then
          tunnel_shutdown
        else
          match err with
          | s5_exec_cmd =>
              match cmd parser' with
              | s5_cmd_tcp_bind => tunnel_shutdown
              | s5_cmd_udp_assoc =>
                  let cfg := config t in
                  let pkg := build_udp_assoc_package (udp cfg) (listen_host cfg)
                               (listen_port cfg) data (Z.of_nat (length data)) in
                  b <- allocate ;;
                  socket_write Incoming (heap_block b) pkg ;;
                  modify (set_stage tunnel_stage_s5_udp_accoc)
              | s5_cmd_tcp_connect =>
                  b <- allocate ;;
                  let pkg := mk_buffer_t b (initial_package_create parser') in
                  modify (set_init_pkg (Some pkg)) ;;
                  let c := tunnel_cipher_create (config t) 1452 in
                  let c := set_server_info c SSR_BUFF_SIZE
                             (get_s5_head_size (buffer pkg) (len pkg) 30) in
                  modify (set_cipher (Some c)) ;;
                  if over_tls_enable (config t) then
                    modify (set_stage tunnel_stage_tls_connecting) ;;
                    tls_client_launch
                  else
                    match convert_universal_address (remote_host (config t))
                            (remote_port (config t)) with
                    | None =>
                        socket_getaddrinfo Outgoing (remote_host (config t)) ;;
                        modify (set_stage tunnel_stage_resolve_ssr_server_host_done)
                    | Some remote_addr =>
                        modify (fun t => set_outgoing (set_addr remote_addr (outgoing t)) t) ;;
                        do_connect_ssr_server
                    end
              end
          | _ => tunnel_shutdown
          end
    end.

Definition do_resolve_ssr_server_host_aftercare : M unit :=
  assert_all_stop ;;
  t <- get ;;
  if result (outgoing t) <? 0 then
    socket_write Incoming string_literal reply_host_unreachable ;;
    modify (set_stage tunnel_stage_kill)
  else
    match addr (outgoing t) with
    | sockaddr_in a _ =>
        modify (set_outgoing
                  (set_addr (sockaddr_in a (remote_port (config t))) (outgoing t))) ;;
        do_connect_ssr_server
    | sockaddr_in6 a _ =>
        modify (set_outgoing
                  (set_addr (sockaddr_in6 a (remote_port (config t))) (outgoing t))) ;;
        do_connect_ssr_server
    | sockaddr_other _ => UNREACHABLE
    end.

Definition do_connect_ssr_server_done : M unit :=
  assert_all_stop ;;
  t <- get ;;
  if result (outgoing t) =? 0 then
    pkg <- deref (init_pkg t) ;;
    tmp <- buffer_clone pkg ;;
    c <- deref (cipher t) ;;
    let '(err, c', bytes) := tunnel_cipher_client_encrypt c (buffer tmp) in
    modify (set_cipher (Some c')) ;;
    if negb (is_ssr_ok err) then
      release (block tmp) ;;
      tunnel_shutdown
    else
      socket_write Outgoing (heap_block (block tmp)) bytes ;;
      release (block tmp) ;;
      modify (set_stage tunnel_stage_ssr_auth_sent)
  else
    socket_write Incoming string_literal reply_connection_refused ;;
    modify (set_stage tunnel_stage_kill).

Definition do_socks5_reply_success : M unit :=
  t <- get ;;
  pkg <- deref (init_pkg t) ;;
  b <- allocate ;;
  assert_all_stop ;;
  socket_write Incoming (heap_block b) (x05 :: x00 :: x00 :: buffer pkg) ;;
  release b ;;
  modify (set_stage tunnel_stage_auth_complition_done).

Definition do_ssr_auth_sent : M unit :=
  assert_all_stop ;;
  t <- get ;;
  if result (outgoing t) <? 0 then
    tunnel_shutdown
  else
    c <- deref (cipher t) ;;
    if tunnel_cipher_client_need_feedback c then
      socket_read Outgoing true ;;
      modify (set_stage tunnel_stage_ssr_waiting_feedback)
    else
      do_socks5_reply_success.

Definition do_ssr_receipt_for_feedback : M bool :=
  assert_all_stop ;;
  t <- get ;;
  if result (outgoing t) <? 0 then
    tunnel_shutdown ;;
    ret false
  else
    b <- buffer_create_from (firstn (Z.to_nat (result (outgoing t))) (buf (outgoing t))) ;;
    c <- deref (cipher t) ;;
    let '(error, c', rest, feedback) := tunnel_cipher_client_decrypt c (buffer b) in
    modify (set_cipher (Some c')) ;;
    feedback <- match feedback with
                | Some bytes => f <- allocate ;; ret (Some (mk_buffer_t f bytes))
                | None => ret None
                end ;;
    ASSERT (is_ssr_ok error) ;;
    ASSERT (Z.of_nat (length rest) =? 0) ;;
    done <- match feedback with
            | Some f =>
                socket_write Outgoing (heap_block (block f)) (buffer f) ;;
                modify (set_stage tunnel_stage_ssr_receipt_of_feedback_sent) ;;
                release (block f) ;;
                ret true
            | None => ret false
            end ;;
    release (block b) ;;
    ret done.

Definition do_launch_streaming : M unit :=
  assert_all_stop ;;
  t <- get ;;
  if result (incoming t) <? 0 then
    tunnel_shutdown
  else
    socket_read Incoming false ;;
    socket_read Outgoing true ;;
    modify (set_stage tunnel_stage_streaming).

(** [tunnel_extract_data]: the buffer it returns, if any, with the block
    the allocator gave.  The length given to [buffer_create_from] is
    [(size_t)socket->result], and no test of the sign comes before it. *)
Definition tunnel_extract_data (s : sock_id) : M (option buffer_t) :=
  t <- get ;;
  let sock := socket_of s t in
  b <- buffer_create_from (take (size_t_cast (result sock)) (buf sock)) ;;
  c <- deref (cipher t) ;;
  r <- match s with
       | Incoming =>
           let '(error, c', bytes) := tunnel_cipher_client_encrypt c (buffer b) in
           modify (set_cipher (Some c')) ;;
           ret (error, bytes)
       | Outgoing =>
           let '(error, c', bytes, feedback) :=
             tunnel_cipher_client_decrypt c (buffer b) in
           modify (set_cipher (Some c')) ;;
           match feedback with
           | Some _ => f <- allocate ;; ASSERT false ;; release f
           | None => ret tt
           end ;;
           ret (error, bytes)
       end ;;
  let '(error, bytes) := r in
  out <- (if is_ssr_ok error then
            m <- allocate ;; ret (Some (mk_buffer_t m bytes))
          else ret None) ;;
  release (block b) ;;
  ret out.

(** [tunnel_dying]: the cipher, if there is one, is released, then
    [init_pkg] ([buffer_release] is given the pointer as it is, null
    included, and has nothing to release then), the parser and the context.
    The pointers are left as they are.  The removal from the registry of
    tunnels is left out, as the insertion in [init_done_cb] is. *)
Definition tunnel_dying : M unit :=
  t <- get ;;
  match cipher t with
  | Some _ => emit (ev_release obj_cipher)
  | None => ret tt
  end ;;
  match init_pkg t with
  | Some pkg => release (block pkg)
  | None => ret tt
  end ;;
  emit (ev_release obj_parser) ;;
  emit (ev_release obj_client_ctx).

Definition tunnel_tls_do_launch_streaming : M unit :=
  assert_all_stop ;;
  t <- get ;;
  if result (incoming t) <? 0 then
    tls_client_shutdown
  else
    socket_read Incoming true ;;
    modify (set_stage tunnel_stage_tls_streaming).

Definition tunnel_tls_client_incoming_streaming (s : sock_id) : M unit :=
  ASSERT (sock_id_eqb s Incoming) ;;
  t <- get ;;
  let sock := socket_of s t in
  let wr_done := socket_state_eqb (wrstate sock) socket_done in
  let rd_done := socket_state_eqb (rdstate sock) socket_done in
  ASSERT ((wr_done && negb rd_done) || (negb wr_done && rd_done)) ;;
  if wr_done then
    modify (set_socket s (set_wrstate socket_stop sock))
  else if rd_done then
    modify (set_socket s (set_rdstate socket_stop sock)) ;;
    out <- tunnel_extract_data s ;;
    match out with
    | Some b =>
        tunnel_tls_send_data (heap_block (block b)) (buffer b) ;;
        release (block b)
    | None => tls_client_shutdown
    end ;;
    socket_read s false
  else
    ASSERT false.

Definition tunnel_tls_on_connection_established : M unit :=
  assert_all_stop ;;
  t <- get ;;
  pkg <- deref (init_pkg t) ;;
  tmp <- buffer_clone pkg ;;
  c <- deref (cipher t) ;;
  let '(err, c', bytes) := tunnel_cipher_client_encrypt c (buffer tmp) in
  modify (set_cipher (Some c')) ;;
  (if negb (is_ssr_ok err) then
     tls_client_shutdown
   else
     modify (set_stage tunnel_stage_tls_first_package) ;;
     tunnel_tls_send_data (heap_block (block tmp)) bytes) ;;
  release (block tmp).

(** [tunnel_tls_on_data_received]: the feedback that the decryption may
    give is looked at by the lower-case [assert] alone, and is not
    released. *)
Definition tunnel_tls_on_data_received (data : list byte) : M unit :=
  t <- get ;;
  match stage t with
  | tunnel_stage_tls_first_package =>
      tmp <- buffer_create_from data ;;
      c <- deref (cipher t) ;;
      let '(err, c', bytes, feedback) := tunnel_cipher_client_decrypt c (buffer tmp) in
      modify (set_cipher (Some c')) ;;
      match feedback with
      | Some _ => f <- allocate ;; ret tt
      | None => ret tt
      end ;;
      (if negb (is_ssr_ok err) then
         tls_client_shutdown
       else
         assert (match feedback with None => true | Some _ => false end) ;;
         do_socks5_reply_success) ;;
      release (block tmp)
  | _ => ASSERT false
  end.

Definition tunnel_tls_on_shutting_down : M unit := tunnel_shutdown.

(** ** The dispatcher *)

Definition latch_rdstate (s : sock_id) : M unit :=
  t <- get ;;
  ASSERT (socket_state_eqb (rdstate (socket_of s t)) socket_done) ;;
  modify (set_socket s (set_rdstate socket_stop (socket_of s t))).

Definition latch_wrstate (s : sock_id) : M unit :=
  t <- get ;;
  ASSERT (socket_state_eqb (wrstate (socket_of s t)) socket_done) ;;
  modify (set_socket s (set_wrstate socket_stop (socket_of s t))).

Definition do_next (socket : sock_id) : M unit :=
  t <- get ;;
  match stage t with
  | tunnel_stage_handshake =>
      latch_rdstate Incoming ;;
      do_handshake
  | tunnel_stage_handshake_auth =>
      do_handshake_auth
  | tunnel_stage_handshake_replied =>
      latch_wrstate Incoming ;;
      do_wait_s5_request
  | tunnel_stage_s5_request =>
      latch_rdstate Incoming ;;
      do_parse_s5_request
  | tunnel_stage_s5_udp_accoc =>
      latch_wrstate Incoming ;;
      tunnel_shutdown
  | tunnel_stage_resolve_ssr_server_host_done =>
      do_resolve_ssr_server_host_aftercare
  | tunnel_stage_connecting_ssr_server =>
      do_connect_ssr_server_done
  | tunnel_stage_ssr_auth_sent =>
      latch_wrstate Outgoing ;;
      do_ssr_auth_sent
  | tunnel_stage_ssr_waiting_feedback =>
      latch_rdstate Outgoing ;;
      done <- do_ssr_receipt_for_feedback ;;
      if negb done then do_socks5_reply_success else ret tt
  | tunnel_stage_ssr_receipt_of_feedback_sent =>
      latch_wrstate Outgoing ;;
      do_socks5_reply_success
  | tunnel_stage_auth_complition_done =>
      latch_wrstate Incoming ;;
      if over_tls_enable (config t) then tunnel_tls_do_launch_streaming
      else do_launch_streaming
  | tunnel_stage_tls_streaming =>
      tunnel_tls_client_incoming_streaming socket
  | tunnel_stage_streaming =>
      tunnel_traditional_streaming socket
  | tunnel_stage_kill =>
      tunnel_shutdown
  | tunnel_stage_tls_connecting | tunnel_stage_tls_first_package =>
      UNREACHABLE
  end.

(** ** Executions *)

(** The callbacks through which the shim and the TLS transport enter
    [client.c] on an event of the tunnel: the end of a read, of a write, of
    a connect or of a name resolution, a timeout, the three events of the
    TLS transport, and the death of the tunnel.  ([tunnel_get_alloc_size]
    and [tunnel_extract_data], which [init_done_cb] registers as well, are
    called for the value they return.) *)
Inductive callback :=
| tunnel_read_done (s : sock_id)
| tunnel_write_done (s : sock_id)
| tunnel_outgoing_connected_done (s : sock_id)
| tunnel_getaddrinfo_done (s : sock_id)
| tunnel_timeout_expire_done (s : sock_id)
| tls_on_connection_established
| tls_on_data_received (data : list byte)
| tls_on_shutting_down
| dying.

Definition run_callback (cb : callback) : M unit :=
  match cb with
  | tunnel_read_done s
  | tunnel_write_done s
  | tunnel_outgoing_connected_done s
  | tunnel_getaddrinfo_done s => do_next s
  | tunnel_timeout_expire_done _ => ret tt
  | tls_on_connection_established => tunnel_tls_on_connection_established
  | tls_on_data_received data => tunnel_tls_on_data_received data
  | tls_on_shutting_down => tunnel_tls_on_shutting_down
  | dying => tunnel_dying
  end.

(** One turn of the event loop: the shim leaves the two sockets in some
    state (states, result, received bytes, resolved address: all of it is
    the shim's to write) and enters a callback. *)
Record turn := mk_turn {
  turn_incoming : socket_ctx;
  turn_outgoing : socket_ctx;
  turn_callback : callback
}.

Definition run_turn (x : turn) : M unit :=
  modify (fun t => set_outgoing (turn_outgoing x) (set_incoming (turn_incoming x) t)) ;;
  run_callback (turn_callback x).

(** An execution of a tunnel: turns, until one of them faults.  The shim
    enters [tunnel_dying] last; the lists of turns here are of any
    shape. *)
Fixpoint run (turns : list turn) : M unit :=
  match turns with
  | [] => ret tt
  | x :: rest => run_turn x ;; run rest
  end.

(** ** Vocabulary of the properties *)

(** No read and no write is pending or awaits consumption on either
    socket: the four assertions that open most handlers. *)
Definition quiescent (t : tunnel_ctx) : Prop :=
  rdstate (incoming t) = socket_stop /\ wrstate (incoming t) = socket_stop /\
  rdstate (outgoing t) = socket_stop /\ wrstate (outgoing t) = socket_stop.

Inductive direction := reading | writing.

Definition state_of (d : direction) (c : socket_ctx) : socket_state :=
  match d with reading => rdstate c | writing => wrstate c end.

Definition set_state (d : direction) (v : socket_state) (c : socket_ctx) : socket_ctx :=
  match d with reading => set_rdstate v c | writing => set_wrstate v c end.

(** Modelled from the spec: the completion on which each stage is entered,
    section 4.3 ("enter on [incoming.rdstate = done]", "on write done",
    "on read done"); the stages entered on the end of a name resolution or
    of a connect, the streaming stages and the terminal stage have none. *)
Definition entry_completion (st : tunnel_stage) : option (sock_id * direction) :=
  match st with
  | tunnel_stage_handshake => Some (Incoming, reading)
  | tunnel_stage_handshake_replied => Some (Incoming, writing)
  | tunnel_stage_s5_request => Some (Incoming, reading)
  | tunnel_stage_s5_udp_accoc => Some (Incoming, writing)
  | tunnel_stage_ssr_auth_sent => Some (Outgoing, writing)
  | tunnel_stage_ssr_waiting_feedback => Some (Outgoing, reading)
  | tunnel_stage_ssr_receipt_of_feedback_sent => Some (Outgoing, writing)
  | tunnel_stage_auth_complition_done => Some (Incoming, writing)
  | _ => None
  end.

(** What [do_next] runs in a stage after the assertion and the latch that
    open the [case]. *)
Definition stage_handler (st : tunnel_stage) (socket : sock_id) : M unit :=
  match st with
  | tunnel_stage_handshake => do_handshake
  | tunnel_stage_handshake_auth => do_handshake_auth
  | tunnel_stage_handshake_replied => do_wait_s5_request
  | tunnel_stage_s5_request => do_parse_s5_request
  | tunnel_stage_s5_udp_accoc => tunnel_shutdown
  | tunnel_stage_resolve_ssr_server_host_done => do_resolve_ssr_server_host_aftercare
  | tunnel_stage_connecting_ssr_server => do_connect_ssr_server_done
  | tunnel_stage_ssr_auth_sent => do_ssr_auth_sent
  | tunnel_stage_ssr_waiting_feedback =>
      done <- do_ssr_receipt_for_feedback ;;
      if negb done then do_socks5_reply_success else ret tt
  | tunnel_stage_ssr_receipt_of_feedback_sent => do_socks5_reply_success
  | tunnel_stage_auth_complition_done =>
      t <- get ;;
      if over_tls_enable (config t) then tunnel_tls_do_launch_streaming
      else do_launch_streaming
  | tunnel_stage_tls_streaming => tunnel_tls_client_incoming_streaming socket
  | tunnel_stage_streaming => tunnel_traditional_streaming socket
  | tunnel_stage_kill => tunnel_shutdown
  | tunnel_stage_tls_connecting | tunnel_stage_tls_first_package => UNREACHABLE
  end.

(** A connect is in order when it is made on [outgoing], to an address
    that the access policy admits. *)
Definition connect_guarded (e : event) : bool :=
  match e with
  | ev_socket_connect s a => sock_id_eqb s Outgoing && can_access a
  | _ => true
  end.

(** Every connect among the events is in order. *)
Definition guarded (evs : list event) : Prop :=
  forallb connect_guarded evs = true.

(** A computation that adds no connect out of order, whether it ends or
    faults. *)
Definition keeps_guard {A : Type} (m : M A) : Prop :=
  forall t : tunnel_ctx, guarded (trace t) -> guarded (trace (final (m t))).

End Tunnel.

Arguments Ok {X A} a t.
Arguments Fault {X A} f t.

(** ** Sample collaborators and tunnels *)

(** A scripted parser: the private part of the context holds the offered
    methods in its four low bits and, above them, the step of the script:
    0 asks for more and consumes nothing, 1 completes a greeting, 2
    completes a request, 3 completes a greeting and leaves one byte. *)
Definition scripted_parse (p : s5_ctx) (data : list byte) (size : Z)
  : s5_err * s5_ctx * Z :=
  let methods := s5_private p mod 16 in
  match s5_private p / 16 with
  | 0 => (s5_ok, p, size)
  | 1 => (s5_auth_select,
          mk_s5_ctx (cmd p) (atyp p) (daddr p) (dport p) (32 + methods), 0)
  | 2 => (s5_exec_cmd, p, 0)
  | 3 => (s5_auth_select, p, 1)
  | _ => (s5_parse_error (-1), p, 0)
  end.

(** A release build on a 64-bit target, the scripted parser, and a cipher
    that leaves the bytes as they are; its context says whether the server
    sends feedback, and the feedback is one byte. *)
Definition sample : Collaborators := {|
  NDEBUG := true;
  size_t_bits := 64;
  SSR_BUFF_SIZE := 2048;
  s5_auth_none := 1;
  s5_auth_passwd := 4;
  s5_parse := scripted_parse;
  s5_auth_methods := fun p => s5_private p mod 16;
  s5_select_auth := fun p _ => p;
  socks5_address_parse := fun _ _ d => d;
  cipher_ctx := bool;
  tunnel_cipher_create := fun _ _ => false;
  set_server_info := fun c _ _ => c;
  get_s5_head_size := fun _ _ def => def;
  tunnel_cipher_client_encrypt := fun c bytes => (ssr_ok, c, bytes);
  tunnel_cipher_client_decrypt :=
    fun c bytes => (ssr_ok, c, [], if c then Some [x01] else None);
  tunnel_cipher_client_need_feedback := fun c => c;
  convert_universal_address :=
    fun _ port => Some (sockaddr_in [x08; x08; x08; x08] port);
  socket_connect_status := fun _ => 0;
  build_udp_assoc_package := fun _ _ _ _ _ => []
|}.

Definition idle_socket : socket_ctx :=
  mk_socket_ctx socket_stop socket_stop 0 [] (sockaddr_other 0).

Definition sample_config : server_config :=
  mk_server_config false "ssr.example"%string 8388 "127.0.0.1"%string 1080 false.

(** The request [CONNECT example.org:443], as the parser holds it. *)
Definition sample_host : list byte :=
  [x65; x78; x61; x6d; x70; x6c; x65; x2e; x6f; x72; x67].

Definition sample_parser (private : Z) : s5_ctx :=
  mk_s5_ctx s5_cmd_tcp_connect s5_atyp_host (sample_host ++ [x00]) 443 private.

(** A tunnel of the sample collaborators in a given stage, the sockets as
    given. *)
Definition sample_tunnel (st : tunnel_stage) (inc out : socket_ctx)
    (private : Z) (c : option bool) : @tunnel_ctx sample :=
  @mk_tunnel_ctx sample inc out None c
    (Some (mk_buffer_t 0 (initial_package_create (sample_parser private))))
    (sample_parser private) st sample_config [] 1.

Definition read_done (n : Z) (data : list byte) : socket_ctx :=
  mk_socket_ctx socket_done socket_stop n data (sockaddr_other 0).

Definition write_done (n : Z) : socket_ctx :=
  mk_socket_ctx socket_stop socket_done n [] (sockaddr_other 0).

Definition resolved (n : Z) (a : sockaddr_universal) : socket_ctx :=
  mk_socket_ctx socket_stop socket_stop n [] a.

(** A socket with a read in flight. *)
Definition busy_socket : socket_ctx :=
  mk_socket_ctx socket_busy socket_stop 0 [] (sockaddr_other 0).

(** The upstream of the sample configuration, and a loopback address. *)
Definition sample_upstream : sockaddr_universal :=
  sockaddr_in [x08; x08; x08; x08] 8388.

Definition loopback_upstream : sockaddr_universal :=
  sockaddr_in [x7f; x00; x00; x01] 8388.

(** A greeting, the completion of the reply, and a request, each handed
    over by the shim with the read or the write done. *)
Definition sample_turns : list (@turn) :=
  [ mk_turn (read_done 3 [x05; x01; x00]) idle_socket (tunnel_read_done Incoming);
    mk_turn (write_done 0) idle_socket (tunnel_write_done Incoming);
    mk_turn (read_done 18 ([x05; x01; x00; x03; x0b] ++ sample_host ++ [x01; xbb]))
      idle_socket (tunnel_read_done Incoming) ].

(** ** Vocabulary of the further properties *)

(** The stages [do_next] can move a tunnel to from a given stage, read off
    the assignments to [ctx->stage] that the handlers of the stage can
    reach. *)
Definition stage_successors (st : tunnel_stage) : list tunnel_stage :=
  match st with
  | tunnel_stage_handshake =>
      [tunnel_stage_handshake_replied; tunnel_stage_kill]
  | tunnel_stage_handshake_replied =>
      [tunnel_stage_s5_request]
  | tunnel_stage_s5_request =>
      [tunnel_stage_s5_udp_accoc; tunnel_stage_tls_connecting;
       tunnel_stage_resolve_ssr_server_host_done;
       tunnel_stage_connecting_ssr_server; tunnel_stage_kill]
  | tunnel_stage_resolve_ssr_server_host_done =>
      [tunnel_stage_connecting_ssr_server; tunnel_stage_kill]
  | tunnel_stage_connecting_ssr_server =>
      [tunnel_stage_ssr_auth_sent; tunnel_stage_kill]
  | tunnel_stage_ssr_auth_sent =>
      [tunnel_stage_ssr_waiting_feedback; tunnel_stage_auth_complition_done]
  | tunnel_stage_ssr_waiting_feedback =>
      [tunnel_stage_ssr_receipt_of_feedback_sent;
       tunnel_stage_auth_complition_done]
  | tunnel_stage_ssr_receipt_of_feedback_sent =>
      [tunnel_stage_auth_complition_done]
  | tunnel_stage_auth_complition_done =>
      [tunnel_stage_tls_streaming; tunnel_stage_streaming]
  | _ => []
  end.

Definition tunnel_stage_eqb (a b : tunnel_stage) : bool :=
  match a, b with
  | tunnel_stage_handshake, tunnel_stage_handshake
  | tunnel_stage_handshake_auth, tunnel_stage_handshake_auth
  | tunnel_stage_handshake_replied, tunnel_stage_handshake_replied
  | tunnel_stage_s5_request, tunnel_stage_s5_request
  | tunnel_stage_s5_udp_accoc, tunnel_stage_s5_udp_accoc
  | tunnel_stage_tls_connecting, tunnel_stage_tls_connecting
  | tunnel_stage_tls_first_package, tunnel_stage_tls_first_package
  | tunnel_stage_tls_streaming, tunnel_stage_tls_streaming
  | tunnel_stage_resolve_ssr_server_host_done, tunnel_stage_resolve_ssr_server_host_done
  | tunnel_stage_connecting_ssr_server, tunnel_stage_connecting_ssr_server
  | tunnel_stage_ssr_auth_sent, tunnel_stage_ssr_auth_sent
  | tunnel_stage_ssr_waiting_feedback, tunnel_stage_ssr_waiting_feedback
  | tunnel_stage_ssr_receipt_of_feedback_sent, tunnel_stage_ssr_receipt_of_feedback_sent
  | tunnel_stage_auth_complition_done, tunnel_stage_auth_complition_done
  | tunnel_stage_streaming, tunnel_stage_streaming
  | tunnel_stage_kill, tunnel_stage_kill => true
  | _, _ => false
  end.

(** The tunnel stays in its stage or moves to one of the successors. *)
Definition stage_step_ok (before after : tunnel_stage) : bool :=
  tunnel_stage_eqb before after ||
  existsb (tunnel_stage_eqb after) (stage_successors before).

(** The events a callback has added to the trace. *)
Definition new_events {X : Collaborators} (t t' : tunnel_ctx) : list event :=
  skipn (length (trace t)) (trace t').

Definition is_write_on (sk : sock_id) (e : event) : bool :=
  match e with
  | ev_socket_write s _ _ => sock_id_eqb s sk
  | _ => false
  end.

Definition is_read_on (sk : sock_id) (e : event) : bool :=
  match e with
  | ev_socket_read s _ => sock_id_eqb s sk
  | _ => false
  end.

Definition is_connect_or_resolve (e : event) : bool :=
  match e with
  | ev_socket_connect _ _ | ev_socket_getaddrinfo _ _ => true
  | _ => false
  end.

(** At most one write and at most one read on each socket, and at most one
    connect or name resolution. *)
Definition one_io_per_socket (evs : list event) : bool :=
  forallb
    (fun sk =>
       (length (filter (is_write_on sk) evs) <=? 1)%nat &&
       (length (filter (is_read_on sk) evs) <=? 1)%nat)
    [Incoming; Outgoing] &&
  (length (filter is_connect_or_resolve evs) <=? 1)%nat.

(** Equality of heap blocks. *)
Definition block_eqb (a b : nat) : bool := Nat.eqb a b.

Arguments block_eqb : simpl never.

Definition object_eqb (a b : object) : bool :=
  match a, b with
  | obj_cipher, obj_cipher | obj_parser, obj_parser
  | obj_client_ctx, obj_client_ctx => true
  | _, _ => false
  end.

(** The release of a given object of the tunnel. *)
Definition releases (o : object) (e : event) : bool :=
  match e with
  | ev_release o' => object_eqb o o'
  | _ => false
  end.

(** The heap discipline of a run of events, [live] being the blocks
    allocated and not yet released: an allocation gives a block that is not
    live, a release takes a live block, and a write or a TLS send from the
    heap reads a live block.  An object of the tunnel is released at most
    once, and the context, through which the others are reached, last of
    all. *)
Fixpoint heap_closed (live : list nat) (evs : list event) : bool :=
  match evs with
  | [] => true
  | ev_alloc b :: rest =>
      negb (existsb (block_eqb b) live) && heap_closed (b :: live) rest
  | ev_free b :: rest =>
      existsb (block_eqb b) live &&
      heap_closed (filter (fun x => negb (block_eqb b x)) live) rest
  | ev_socket_write _ (heap_block b) _ :: rest
  | ev_tls_send_data (heap_block b) _ :: rest =>
      existsb (block_eqb b) live && heap_closed live rest
  | ev_release o :: rest =>
      negb (existsb (releases o) rest) &&
      match o, rest with
      | obj_client_ctx, _ :: _ => false
      | _, _ => true
      end &&
      heap_closed live rest
  | _ :: rest => heap_closed live rest
  end.

(** The blocks that a callback finds allocated and releases: none, but for
    [tunnel_dying], which releases [init_pkg], the one buffer that outlives
    the callback that has made it. *)
Definition blocks_to_release {X : Collaborators} (cb : callback) (t : tunnel_ctx)
  : list nat :=
  match cb, init_pkg t with
  | dying, Some pkg => [block pkg]
  | _, _ => []
  end.

(** Reads, writes, connects, name resolutions and what is handed to the TLS
    transport: the events that reach a peer. *)
Definition is_io (e : event) : bool :=
  match e with
  | ev_socket_read _ _ | ev_socket_write _ _ _ | ev_socket_connect _ _
  | ev_socket_getaddrinfo _ _ | ev_tls_client_launch | ev_tls_send_data _ _ => true
  | _ => false
  end.

Definition is_read_or_write (e : event) : bool :=
  match e with
  | ev_socket_read _ _ | ev_socket_write _ _ _ => true
  | _ => false
  end.

Definition is_shutdown (e : event) : bool :=
  match e with ev_tunnel_shutdown => true | _ => false end.

(** [tunnel_shutdown], if it is called, is called last, and no read was
    armed and nothing written before it. *)
Fixpoint shutdown_alone (evs : list event) : bool :=
  match evs with
  | [] => true
  | ev_tunnel_shutdown :: rest => match rest with [] => true | _ => false end
  | e :: rest =>
      if is_read_or_write e then negb (existsb is_shutdown rest)
      else shutdown_alone rest
  end.

(** The four replies that refuse a client, written from string literals. *)
Definition is_refusal (e : event) : bool :=
  match e with
  | ev_socket_write Incoming string_literal bytes =>
      existsb
        (fun reply =>
           (length bytes =? length reply)%nat &&
           forallb (fun p => Byte.eqb (fst p) (snd p)) (combine bytes reply))
        [reply_no_acceptable_auth; reply_host_unreachable;
         reply_not_allowed; reply_connection_refused]
  | _ => false
  end.

(** The last event, if there is one, satisfies [f]. *)
Definition last_event_is (f : event -> bool) (evs : list event) : bool :=
  match rev evs with
  | e :: _ => f e
  | [] => false
  end.

Definition is_some {A : Type} (o : option A) : bool :=
  match o with Some _ => true | None => false end.

Definition is_fault {X : Collaborators} {A : Type} (o : outcome A) : bool :=
  match o with Ok _ _ => false | Fault _ _ => true end.

(** The reply that denies access, as an event. *)
Definition is_denial (e : event) : bool :=
  match e with
  | ev_socket_write Incoming string_literal bytes =>
      (length bytes =? length reply_not_allowed)%nat &&
      forallb (fun p => Byte.eqb (fst p) (snd p)) (combine bytes reply_not_allowed)
  | _ => false
  end.

(** An event on the outgoing socket: a read, a write, a connect or a name
    resolution. *)
Definition on_outgoing (e : event) : bool :=
  match e with
  | ev_socket_read Outgoing _ | ev_socket_write Outgoing _ _
  | ev_socket_connect Outgoing _ | ev_socket_getaddrinfo Outgoing _ => true
  | _ => false
  end.

(** The stages of the path over TLS, with those before the request and the
    terminal one. *)
Definition tls_path_stage (st : tunnel_stage) : bool :=
  match st with
  | tunnel_stage_handshake | tunnel_stage_handshake_auth
  | tunnel_stage_handshake_replied | tunnel_stage_s5_request
  | tunnel_stage_s5_udp_accoc | tunnel_stage_tls_connecting
  | tunnel_stage_tls_first_package | tunnel_stage_tls_streaming
  | tunnel_stage_auth_complition_done | tunnel_stage_kill => true
  | _ => false
  end.

(** What a callback may do to a state of a socket: leave it, or take it
    from done to stop. *)
Definition state_latch_ok (before after : socket_state) : bool :=
  socket_state_eqb before after ||
  (socket_state_eqb before socket_done && socket_state_eqb after socket_stop).

(** The sample collaborators in a debug build, with a remote host that is
    the loopback address. *)
Definition sample_debug : Collaborators := {|
  NDEBUG := false;
  size_t_bits := 64;
  SSR_BUFF_SIZE := 2048;
  s5_auth_none := 1;
  s5_auth_passwd := 4;
  s5_parse := scripted_parse;
  s5_auth_methods := fun p => s5_private p mod 16;
  s5_select_auth := fun p _ => p;
  socks5_address_parse := fun _ _ d => d;
  cipher_ctx := bool;
  tunnel_cipher_create := fun _ _ => false;
  set_server_info := fun c _ _ => c;
  get_s5_head_size := fun _ _ def => def;
  tunnel_cipher_client_encrypt := fun c bytes => (ssr_ok, c, bytes);
  tunnel_cipher_client_decrypt :=
    fun c bytes => (ssr_ok, c, [], if c then Some [x01] else None);
  tunnel_cipher_client_need_feedback := fun c => c;
  convert_universal_address :=
    fun _ port => Some (sockaddr_in [x7f; x00; x00; x01] port);
  socket_connect_status := fun _ => 0;
  build_udp_assoc_package := fun _ _ _ _ _ => []
|}.

(** The sample configuration with TLS. *)
Definition sample_tls_config : server_config :=
  mk_server_config true "ssr.example"%string 443 "127.0.0.1"%string 1080 false.

(** A tunnel of the sample collaborators with a given configuration and
    parser context. *)
Definition sample_tunnel_of (cfg : server_config) (p : s5_ctx)
    (st : tunnel_stage) (inc out : socket_ctx) (c : option bool)
  : @tunnel_ctx sample :=
  @mk_tunnel_ctx sample inc out None c
    (Some (mk_buffer_t 0 (initial_package_create p))) p st cfg [] 1.

(** A parsed request for a given command: step 2 of the script. *)
Definition sample_request (c : s5_cmd) : s5_ctx :=
  mk_s5_ctx c s5_atyp_host (sample_host ++ [x00]) 443 32.

(** What a callback entered on tunnel [t] may write: to the client one of
    the five replies kept as string literals, the success reply made of
    [init_pkg], or the package for UDP ASSOCIATE; to the upstream, and to
    the TLS transport, only what the cipher has produced: the encryption of
    [init_pkg] or of the bytes read from the client (as
    [tunnel_extract_data] takes them), or the feedback that a decryption of
    the bytes read from the upstream has returned. *)
Definition expected_write {X : Collaborators} (t : tunnel_ctx) (e : event) : Prop :=
  match e with
  | ev_socket_write Incoming string_literal bytes =>
      In bytes
        [reply_no_auth; reply_no_acceptable_auth; reply_host_unreachable;
         reply_not_allowed; reply_connection_refused]
  | ev_socket_write Incoming (heap_block _) bytes =>
      (exists pkg, init_pkg t = Some pkg /\ bytes = x05 :: x00 :: x00 :: buffer pkg) \/
      bytes =
        build_udp_assoc_package (udp (config t)) (listen_host (config t))
          (listen_port (config t)) (buf (incoming t))
          (Z.of_nat (length (buf (incoming t))))
  | ev_socket_write Outgoing (heap_block _) bytes =>
      exists c, cipher t = Some c /\
        ((exists pkg, init_pkg t = Some pkg /\
                      bytes = snd (tunnel_cipher_client_encrypt c (buffer pkg))) \/
         snd (tunnel_cipher_client_decrypt c
                (firstn (Z.to_nat (result (outgoing t))) (buf (outgoing t))))
         = Some bytes)
  | ev_tls_send_data (heap_block _) bytes =>
      exists c, cipher t = Some c /\
        ((exists pkg, init_pkg t = Some pkg /\
                      bytes = snd (tunnel_cipher_client_encrypt c (buffer pkg))) \/
         bytes =
           snd (tunnel_cipher_client_encrypt c
                  (take (size_t_cast (result (incoming t))) (buf (incoming t)))))
  | ev_socket_write Outgoing string_literal _
  | ev_tls_send_data string_literal _ => False
  | _ => True
  end.

(** ** Facts about bytes *)

Lemma byte_val_uint8 (z : Z) : byte_val (uint8 z) = z mod 256.
Proof.
  unfold byte_val, uint8.
  assert (Hr : 0 <= z mod 256 < 256) by (apply Z.mod_pos_bound; lia).
  destruct (Byte.of_N (Z.to_N (z mod 256))) as [b|] eqn:E.
  - apply Byte.to_of_N in E. rewrite E. lia.
  - apply Byte.of_N_None_iff in E. lia.
Qed.

Lemma byte_val_range (b : byte) : 0 <= byte_val b < 256.
Proof.
  unfold byte_val. pose proof (Byte.to_N_bounded b). lia.
Qed.

Lemma uint8_byte_val (b : byte) : uint8 (byte_val b) = b.
Proof.
  unfold uint8. pose proof (byte_val_range b) as Hr.
  rewrite Z.mod_small by lia.
  unfold byte_val. rewrite N2Z.id, Byte.of_to_N. reflexivity.
Qed.

Lemma uint8_mod (z : Z) : uint8 (z mod 256) = uint8 z.
Proof.
  unfold uint8. rewrite Z.mod_mod by lia. reflexivity.
Qed.

Lemma take_firstn (len : Z) (data : list byte) :
  take len data = firstn (Z.to_nat len) data.
Proof.
  unfold take. destruct (Z.leb_spec (Z.of_nat (length data)) len) as [Hle | Hlt].
  - symmetry. apply firstn_all2. lia.
  - reflexivity.
Qed.

Lemma htons_bytes_split (port : Z) :
  htons_bytes port = [uint8 (port / 256); uint8 (port mod 256)].
Proof.
  unfold htons_bytes. rewrite Z.shiftr_div_pow2 by lia.
  change (2 ^ 8) with 256. rewrite uint8_mod. reflexivity.
Qed.

Lemma strlen_app_nul (addr rest : list byte) :
  forallb (fun b => negb (Byte.eqb b x00)) addr = true ->
  strlen (addr ++ x00 :: rest) = length addr.
Proof.
  induction addr as [|b addr IH]; simpl; intros H.
  - reflexivity.
  - apply andb_true_iff in H as [Hb Hrest].
    apply negb_true_iff in Hb. rewrite Hb. f_equal. auto.
Qed.

Lemma firstn_length_app {A} (l r : list A) : firstn (length l) (l ++ r) = l.
Proof.
  rewrite firstn_app, Nat.sub_diag, firstn_all. simpl. apply app_nil_r.
Qed.

Lemma skipn_length_app {A} (l r : list A) : skipn (length l) (l ++ r) = r.
Proof.
  rewrite skipn_app, Nat.sub_diag, skipn_all. reflexivity.
Qed.

Lemma parse_port_split (port : Z) :
  0 <= port < 65536 ->
  parse_port [uint8 (port / 256); uint8 (port mod 256)] = Some port.
Proof.
  intros Hp. unfold parse_port. rewrite !byte_val_uint8.
  rewrite Z.mod_mod by lia.
  rewrite (Z.mod_small (port / 256)).
  - f_equal. pose proof (Z.div_mod port 256). lia.
  - split; [apply Z.div_pos; lia | apply Z.div_lt_upper_bound; lia].
Qed.

Lemma parse_fixed_record (a : s5_atyp) (addr : list byte) (port : Z) :
  0 <= port < 65536 ->
  parse_fixed a (length addr) (addr ++ [uint8 (port / 256); uint8 (port mod 256)])
  = Some (a, addr, port).
Proof.
  intros Hp. unfold parse_fixed.
  rewrite length_app. simpl length.
  destruct (Nat.ltb_spec (length addr + 2) (length addr)) as [Hlt|_]; [lia|].
  rewrite skipn_length_app, firstn_length_app, parse_port_split by assumption.
  reflexivity.
Qed.

Lemma s5_atyp_of_byte_code (a : s5_atyp) :
  s5_atyp_of_byte (uint8 (s5_atyp_code a)) = Some a.
Proof. destruct a; reflexivity. Qed.

(** Reading back a record written for a valid triple gives the triple. *)
Lemma address_record_parse_record (a : s5_atyp) (addr : list byte) (port : Z) :
  valid_destination a addr port = true ->
  address_record_parse (address_record a addr port) = Some (a, addr, port).
Proof.
  unfold valid_destination. intros H.
  apply andb_true_iff in H as [H Ha]. apply andb_true_iff in H as [H0 H1].
  apply Z.leb_le in H0. apply Z.ltb_lt in H1.
  unfold address_record, address_record_parse.
  destruct a; cbn [app]; rewrite s5_atyp_of_byte_code.
  - apply Nat.eqb_eq in Ha. rewrite <- Ha.
    apply parse_fixed_record; lia.
  - apply Nat.eqb_eq in Ha. rewrite <- Ha.
    apply parse_fixed_record; lia.
  - apply andb_true_iff in Ha as [Hlen _]. apply Nat.leb_le in Hlen.
    rewrite byte_val_uint8, Z.mod_small by lia.
    rewrite Nat2Z.id. apply parse_fixed_record; lia.
Qed.

(** ** The address record: [initial_package_create] and its reader *)

(** On a context that holds a valid triple, [initial_package_create] writes
    the record of section 4.4. *)
Lemma initial_package_create_layout (p : s5_ctx) (a : s5_atyp)
    (addr : list byte) (port : Z) :
  valid_destination a addr port = true ->
  holds_destination p a addr port ->
  initial_package_create p = address_record a addr port.
Proof.
  intros Hv (Ha & Hp & rest & Hd).
  unfold initial_package_create, address_record.
  rewrite Ha, Hp, Hd, htons_bytes_split.
  unfold valid_destination in Hv.
  apply andb_true_iff in Hv as [_ Hv].
  destruct a; cbn [app].
  - apply Nat.eqb_eq in Hv. rewrite <- Hv, firstn_length_app. reflexivity.
  - apply Nat.eqb_eq in Hv. rewrite <- Hv, firstn_length_app. reflexivity.
  - apply andb_true_iff in Hv as [Hlen Hnul]. apply Nat.leb_le in Hlen.
    rewrite (strlen_app_nul addr rest Hnul).
    rewrite byte_val_uint8, Z.mod_small by lia.
    rewrite Nat2Z.id, firstn_length_app. reflexivity.
Qed.

(** C3, amended. For every destination triple (atyp, addr, port) with atyp
    among ipv4, ipv6 and host, an address of the size the record has for
    its type (4 bytes, 16 bytes, or a host name of at most 255 bytes) and a
    16-bit port, and with no NUL byte in a host name, the [init_pkg] that
    [initial_package_create] builds from the parser context that holds the
    triple is one atyp byte, then the 4 address bytes (ipv4), the 16
    address bytes (ipv6) or a length byte and that many host bytes, then
    the port in two bytes, big-endian; and reading the record back yields
    the triple. *)
Theorem init_pkg_round_trip (p : s5_ctx) (a : s5_atyp) (addr : list byte) (port : Z) :
  valid_destination a addr port = true ->
  holds_destination p a addr port ->
  initial_package_create p = address_record a addr port /\
  address_record_parse (initial_package_create p) = Some (a, addr, port).
Proof.
  intros Hv Hh.
  rewrite (initial_package_create_layout p a addr port Hv Hh).
  split; [reflexivity | apply address_record_parse_record; assumption].
Qed.

Lemma init_pkg_round_trip_witness :
  initial_package_create (sample_parser 0)
    = [x03; x0b] ++ sample_host ++ [x01; xbb] /\
  address_record_parse (initial_package_create (sample_parser 0))
    = Some (s5_atyp_host, sample_host, 443).
Proof.
  assert (Hv : valid_destination s5_atyp_host sample_host 443 = true)
    by reflexivity.
  assert (Hh : holds_destination (sample_parser 0) s5_atyp_host sample_host 443).
  { repeat split. exists []. reflexivity. }
  destruct (init_pkg_round_trip (sample_parser 0) s5_atyp_host sample_host 443 Hv Hh)
    as [Hl Hr].
  split; [rewrite Hl; reflexivity | exact Hr].
Defined.

(** ** Running the handlers *)

Section Properties.

Context {X : Collaborators}.

(** Unfolding the monad and the handlers down to the record operations. *)
Ltac unfold_monad :=
  unfold socket_read, socket_write, socket_getaddrinfo, socket_connect,
    tunnel_shutdown, tls_client_launch, tls_client_shutdown,
    tunnel_tls_send_data, tunnel_traditional_streaming,
    buffer_create_from, buffer_clone, allocate, release, deref,
    assert_all_stop, assert_incoming_stop, latch_rdstate, latch_wrstate,
    UNREACHABLE, assert, ASSERT, emit, modify, get, raise, bind, ret.

Ltac unfold_handlers :=
  unfold do_next, stage_handler, do_handshake, do_handshake_auth,
    do_wait_s5_request, do_parse_s5_request,
    do_resolve_ssr_server_host_aftercare, do_connect_ssr_server_done,
    do_ssr_auth_sent, do_ssr_receipt_for_feedback, do_launch_streaming,
    tunnel_tls_do_launch_streaming, do_connect_ssr_server,
    do_socks5_reply_success.

(** A tunnel taken apart into its fields, the hypotheses on the fields
    turned into substitutions. *)
Ltac open_tunnel t :=
  destruct t as [[? ? ? ? ?] [? ? ? ? ?] ? ? ? ? ? ? ? ?];
  unfold quiescent in *; cbn in *;
  repeat match goal with H : _ /\ _ |- _ => destruct H end;
  subst.

Ltac sign_of_result :=
  match goal with
  | H : 0 <= ?r |- context [?r <? 0] =>
      rewrite (proj2 (Z.ltb_ge r 0) H)
  | H : ?r < 0 |- context [?r <? 0] =>
      rewrite (proj2 (Z.ltb_lt r 0) H)
  | H : ?r <> 0 |- context [?r =? 0] =>
      rewrite (proj2 (Z.eqb_neq r 0) H)
  end.

(** C1. For every client greeting parsed in stage handshake (the parser
    answers auth-select and has consumed the read): if the offered method
    bitset contains 'none' and the policy allows it, the core selects
    'none', writes exactly the two bytes 05 00 to the incoming socket and
    the stage becomes handshake_replied; otherwise, no supported method
    being offered or the policy refusing, it writes exactly the two bytes
    05 FF and the stage becomes kill. *)
Theorem handshake_method_selection (s : sock_id) (t : tunnel_ctx) (p' : s5_ctx) :
  stage t = tunnel_stage_handshake ->
  rdstate (incoming t) = socket_done ->
  wrstate (incoming t) = socket_stop ->
  0 <= result (incoming t) ->
  s5_parse (parser t) (buf (incoming t)) (result (incoming t))
    = (s5_auth_select, p', 0) ->
  exists t',
    do_next s t = Ok tt t' /\
    if negb (Z.land (s5_auth_methods p') s5_auth_none =? 0) && can_auth_none then
      parser t' = s5_select_auth p' s5_auth_none /\
      trace t' = trace t ++ [ev_socket_write Incoming string_literal [x05; x00]] /\
      stage t' = tunnel_stage_handshake_replied
    else
      trace t' = trace t ++ [ev_socket_write Incoming string_literal [x05; xff]] /\
      stage t' = tunnel_stage_kill.
Proof.
  intros Hstage Hrd Hwr Hres Hparse.
  open_tunnel t.
  unfold_handlers; unfold_monad; cbn.
  sign_of_result. rewrite Hparse. cbn.
  unfold can_auth_none, can_auth_passwd.
  rewrite andb_true_r, andb_false_r.
  destruct (Z.land (s5_auth_methods p') s5_auth_none =? 0); cbn;
    eexists; (split; [reflexivity | cbn; auto]).
Qed.


(** C2. Each CONNECT failure produces exactly the 10-byte SOCKS5 error
    reply on the incoming socket, followed by stage kill: a failed DNS
    lookup yields 05 04 00 01 00 00 00 00 00 00 (host unreachable), a
    denial by the access policy yields 05 02 00 01 00 00 00 00 00 00
    (connection not allowed), and a failed upstream connect yields
    05 05 00 01 00 00 00 00 00 00 (connection refused). *)
Theorem connect_failure_replies (s : sock_id) (t : tunnel_ctx) :
  quiescent t ->
  (stage t = tunnel_stage_resolve_ssr_server_host_done ->
   result (outgoing t) < 0 ->
   do_next s t =
     Ok tt (set_stage tunnel_stage_kill
              (set_trace
                 (trace t ++
                  [ev_socket_write Incoming string_literal
                     [x05; x04; x00; x01; x00; x00; x00; x00; x00; x00]]) t))) /\
  (can_access (addr (outgoing t)) = false ->
   do_connect_ssr_server t =
     Ok tt (set_stage tunnel_stage_kill
              (set_trace
                 (trace t ++
                  [ev_socket_write Incoming string_literal
                     [x05; x02; x00; x01; x00; x00; x00; x00; x00; x00]]) t))) /\
  (stage t = tunnel_stage_connecting_ssr_server ->
   result (outgoing t) <> 0 ->
   do_next s t =
     Ok tt (set_stage tunnel_stage_kill
              (set_trace
                 (trace t ++
                  [ev_socket_write Incoming string_literal
                     [x05; x05; x00; x01; x00; x00; x00; x00; x00; x00]]) t))).
Proof.
  intros Hq. repeat split.
  - intros Hstage Hres. open_tunnel t.
    unfold_handlers; unfold_monad; cbn. sign_of_result. reflexivity.
  - intros Hdeny. open_tunnel t.
    unfold_handlers; unfold_monad; cbn. rewrite Hdeny. reflexivity.
  - intros Hstage Hres. open_tunnel t.
    unfold_handlers; unfold_monad; cbn. sign_of_result. reflexivity.
Qed.

(** C5. After the write of the auth package to the upstream completes in
    stage ssr_auth_sent, the core branches on [need_feedback]: if it holds,
    a read is armed on the outgoing socket and the stage becomes
    ssr_waiting_feedback, else the success reply is issued at once: the
    bytes 05 00 00 and [init_pkg] are written to the incoming socket and
    the stage becomes auth_complition_done.  In stage ssr_waiting_feedback,
    a decrypt that yields a feedback blob makes the core write the blob to
    the outgoing socket, with stage ssr_receipt_of_feedback_sent; a decrypt
    without feedback leads straight to the same success reply, with no
    other read or write. *)
Theorem feedback_branching (s : sock_id) (t : tunnel_ctx) (c : cipher_ctx)
    (pkg : buffer_t) :
  cipher t = Some c ->
  init_pkg t = Some pkg ->
  0 <= result (outgoing t) ->
  rdstate (incoming t) = socket_stop ->
  wrstate (incoming t) = socket_stop ->
  let success_reply b :=
    [ev_alloc b;
     ev_socket_write Incoming (heap_block b) (x05 :: x00 :: x00 :: buffer pkg);
     ev_free b] in
  (stage t = tunnel_stage_ssr_auth_sent ->
   rdstate (outgoing t) = socket_stop ->
   wrstate (outgoing t) = socket_done ->
   let b := next_block t in
   let t1 := set_outgoing (set_wrstate socket_stop (outgoing t)) t in
   if tunnel_cipher_client_need_feedback c then
     do_next s t =
       Ok tt (set_stage tunnel_stage_ssr_waiting_feedback
                (set_trace (trace t ++ [ev_socket_read Outgoing true]) t1))
   else
     do_next s t =
       Ok tt (set_stage tunnel_stage_auth_complition_done
                (set_trace (trace t ++ success_reply b)
                   (set_next_block (S b) t1)))) /\
  (stage t = tunnel_stage_ssr_waiting_feedback ->
   rdstate (outgoing t) = socket_done ->
   wrstate (outgoing t) = socket_stop ->
   forall (c' : cipher_ctx) (feedback : option (list byte)),
   tunnel_cipher_client_decrypt c
     (firstn (Z.to_nat (result (outgoing t))) (buf (outgoing t)))
     = (ssr_ok, c', [], feedback) ->
   let b := next_block t in
   let t1 := set_cipher (Some c')
               (set_outgoing (set_rdstate socket_stop (outgoing t)) t) in
   match feedback with
   | Some blob =>
       do_next s t =
         Ok tt (set_stage tunnel_stage_ssr_receipt_of_feedback_sent
                  (set_trace
                     (trace t ++
                      [ev_alloc b; ev_alloc (S b);
                       ev_socket_write Outgoing (heap_block (S b)) blob;
                       ev_free (S b); ev_free b])
                     (set_next_block (S (S b)) t1)))
   | None =>
       do_next s t =
         Ok tt (set_stage tunnel_stage_auth_complition_done
                  (set_trace
                     (trace t ++ [ev_alloc b; ev_free b] ++ success_reply (S b))
                     (set_next_block (S (S b)) t1)))
   end).
Proof.
  intros Hc Hpkg Hres Hird Hiwr success_reply. subst success_reply. split.
  - intros Hstage Hord Howr. open_tunnel t.
    unfold do_next, do_ssr_auth_sent, do_socks5_reply_success;
      unfold_monad; cbn.
    sign_of_result.
    destruct (tunnel_cipher_client_need_feedback c); cbn;
      rewrite <- ?app_assoc; reflexivity.
  - intros Hstage Hord Howr c' feedback Hdec. open_tunnel t.
    unfold do_next, do_ssr_receipt_for_feedback, do_socks5_reply_success;
      unfold_monad; cbn.
    sign_of_result. rewrite Hdec.
    destruct feedback; cbn; rewrite <- ?app_assoc; reflexivity.
Qed.

(** A read error in stage ssr_waiting_feedback: [do_ssr_receipt_for_feedback]
    shuts the tunnel down and returns [false], the value it also returns
    when there is no feedback, and [do_next] goes on to the success
    reply. *)
Remark feedback_read_error_then_reply (s : sock_id) (t : tunnel_ctx) (pkg : buffer_t) :
  stage t = tunnel_stage_ssr_waiting_feedback ->
  rdstate (outgoing t) = socket_done ->
  quiescent (set_outgoing (set_rdstate socket_stop (outgoing t)) t) ->
  result (outgoing t) < 0 ->
  init_pkg t = Some pkg ->
  let b := next_block t in
  trace (final (do_next s t)) =
    trace t ++
    [ev_tunnel_shutdown; ev_alloc b;
     ev_socket_write Incoming (heap_block b) ([x05; x00; x00] ++ buffer pkg);
     ev_free b].
Proof.
  intros Hstage Hord Hq Hres Hpkg. open_tunnel t.
  unfold do_next, do_ssr_receipt_for_feedback, do_socks5_reply_success;
    unfold_monad; cbn.
  sign_of_result. cbn. rewrite <- ?app_assoc. reflexivity.
Qed.

(** C6. The SOCKS5 success reply written to the incoming socket is exactly
    the three bytes 05 00 00 followed by the bytes of [init_pkg], and the
    stage becomes auth_complition_done; when that write completes under a
    configuration without TLS, reads are armed on both the incoming and the
    outgoing socket and the stage becomes streaming. *)
Theorem success_reply_then_streaming (s : sock_id) (t : tunnel_ctx) :
  rdstate (incoming t) = socket_stop ->
  rdstate (outgoing t) = socket_stop ->
  wrstate (outgoing t) = socket_stop ->
  (forall pkg : buffer_t,
   init_pkg t = Some pkg ->
   wrstate (incoming t) = socket_stop ->
   let b := next_block t in
   do_socks5_reply_success t =
     Ok tt (set_stage tunnel_stage_auth_complition_done
              (set_trace
                 (trace t ++
                  [ev_alloc b;
                   ev_socket_write Incoming (heap_block b)
                     ([x05; x00; x00] ++ buffer pkg);
                   ev_free b])
                 (set_next_block (S b) t)))) /\
  (stage t = tunnel_stage_auth_complition_done ->
   wrstate (incoming t) = socket_done ->
   over_tls_enable (config t) = false ->
   0 <= result (incoming t) ->
   do_next s t =
     Ok tt (set_stage tunnel_stage_streaming
              (set_trace
                 (trace t ++
                  [ev_socket_read Incoming false; ev_socket_read Outgoing true])
                 (set_incoming (set_wrstate socket_stop (incoming t)) t)))).
Proof.
  intros Hird Hord Howr. split.
  - intros pkg Hpkg Hiwr. open_tunnel t.
    unfold_handlers; unfold_monad; cbn. rewrite <- ?app_assoc. reflexivity.
  - intros Hstage Hiwr Htls Hres. open_tunnel t.
    unfold_handlers; unfold_monad; cbn. rewrite Htls. cbn. sign_of_result.
    cbn. rewrite <- ?app_assoc. reflexivity.
Qed.


(** C4, as the code has it.  When the parser answers need-more the core
    arms the read on the incoming socket again and keeps the stage,
    whatever size the parser reports as left.  When the parser answers
    anything else and bytes are left, the core shuts the tunnel down: no
    read is armed, nothing is written.  The same holds for the read of the
    greeting and for the read of the request (where the call of
    [socks5_address_parse] comes first). *)
Theorem residual_bytes_handling (s : sock_id) (t : tunnel_ctx)
    (err : s5_err) (p' : s5_ctx) (n : Z) :
  rdstate (incoming t) = socket_done ->
  wrstate (incoming t) = socket_stop ->
  0 <= result (incoming t) ->
  s5_parse (parser t) (buf (incoming t)) (result (incoming t)) = (err, p', n) ->
  let t1 := set_parser p' (set_incoming (set_rdstate socket_stop (incoming t)) t) in
  (stage t = tunnel_stage_handshake ->
   (err = s5_ok ->
    do_next s t =
      Ok tt (set_trace (trace t ++ [ev_socket_read Incoming true]) t1)) /\
   (err <> s5_ok -> n <> 0 ->
    do_next s t =
      Ok tt (set_trace (trace t ++ [ev_tunnel_shutdown]) t1))) /\
  (stage t = tunnel_stage_s5_request ->
   rdstate (outgoing t) = socket_stop ->
   wrstate (outgoing t) = socket_stop ->
   let size := size_t_sub (result (incoming t)) 3 in
   let t2 := set_desired_addr
               (socks5_address_parse (skipn 3 (buf (incoming t))) size
                  (desired_addr t)) t1 in
   (err = s5_ok ->
    do_next s t =
      Ok tt (set_trace
               (trace t ++
                [ev_socks5_address_parse 3 size; ev_socket_read Incoming true]) t2)) /\
   (err <> s5_ok -> n <> 0 ->
    do_next s t =
      Ok tt (set_trace
               (trace t ++
                [ev_socks5_address_parse 3 size; ev_tunnel_shutdown]) t2))).
Proof.
  intros Hrd Hwr Hres Hparse. split.
  - intros Hstage. split.
    + intros ->. open_tunnel t.
      unfold_handlers; unfold_monad; cbn.
      sign_of_result. rewrite Hparse. reflexivity.
    + intros Herr Hn. open_tunnel t.
      unfold_handlers; unfold_monad; cbn.
      sign_of_result. rewrite Hparse. cbn.
      destruct err; try congruence; cbn; sign_of_result; reflexivity.
  - intros Hstage Hord Howr. split.
    + intros ->. open_tunnel t.
      unfold_handlers; unfold_monad; cbn.
      sign_of_result. cbn. rewrite Hparse. cbn.
      rewrite <- ?app_assoc. reflexivity.
    + intros Herr Hn. open_tunnel t.
      unfold_handlers; unfold_monad; cbn.
      sign_of_result. cbn. rewrite Hparse. cbn.
      destruct err; try congruence; cbn; sign_of_result; cbn;
        rewrite <- ?app_assoc; reflexivity.
Qed.


(** C9, as the code has it.  The heap buffer built for the SOCKS5 success
    reply and the encrypted clone of [init_pkg] are allocated before the
    write, hold the bytes written when [socket_write] is called, and are
    released by the handler right after that call, without waiting for the
    completion of the write. *)
Theorem write_sources_released_after_queueing (t : tunnel_ctx)
    (pkg : buffer_t) (c : cipher_ctx) :
  quiescent t ->
  init_pkg t = Some pkg ->
  cipher t = Some c ->
  let b := next_block t in
  trace (final (do_socks5_reply_success t)) =
    trace t ++
    [ev_alloc b;
     ev_socket_write Incoming (heap_block b) ([x05; x00; x00] ++ buffer pkg);
     ev_free b] /\
  (result (outgoing t) = 0 ->
   forall (c' : cipher_ctx) (bytes : list byte),
   tunnel_cipher_client_encrypt c (buffer pkg) = (ssr_ok, c', bytes) ->
   trace (final (do_connect_ssr_server_done t)) =
     trace t ++
     [ev_alloc b; ev_socket_write Outgoing (heap_block b) bytes; ev_free b]).
Proof.
  intros Hq Hpkg Hc. split.
  - open_tunnel t.
    unfold_handlers; unfold_monad; cbn. rewrite <- ?app_assoc. reflexivity.
  - intros Hres c' bytes Henc. open_tunnel t.
    unfold_handlers; unfold_monad; cbn. rewrite Henc. cbn.
    rewrite <- ?app_assoc. reflexivity.
Qed.

(** In [size_t], the length [n - 3] of a read of fewer than three bytes
    wraps around to the top of the range. *)
Lemma size_t_sub_underflow (n : Z) :
  2 <= size_t_bits -> 0 <= n < 3 ->
  size_t_sub n 3 = 2 ^ size_t_bits + n - 3 /\ n < size_t_sub n 3.
Proof.
  intros Hbits Hn. unfold size_t_sub.
  assert (Hpow : 4 <= 2 ^ size_t_bits).
  { change 4 with (2 ^ 2). apply Z.pow_le_mono_r; lia. }
  assert (Heq : (n - 3) mod 2 ^ size_t_bits = 2 ^ size_t_bits + n - 3).
  { symmetry. apply Z.mod_unique with (q := -1); lia. }
  rewrite Heq. lia.
Qed.


(** ** Connects and the access policy *)

Lemma guarded_snoc (evs : list event) (e : event) :
  guarded evs -> connect_guarded e = true -> guarded (evs ++ [e]).
Proof.
  unfold guarded. intros Hevs He.
  rewrite forallb_app, Hevs. cbn. rewrite He. reflexivity.
Qed.

Lemma keeps_ret {A : Type} (a : A) : keeps_guard (ret a).
Proof. intros t Ht. exact Ht. Qed.

Lemma keeps_raise {A : Type} (f : fault) : keeps_guard (@raise X A f).
Proof. intros t Ht. exact Ht. Qed.

Lemma keeps_get : keeps_guard get.
Proof. intros t Ht. exact Ht. Qed.

Lemma keeps_bind {A B : Type} (m : M A) (k : A -> M B) :
  keeps_guard m -> (forall a, keeps_guard (k a)) -> keeps_guard (bind m k).
Proof.
  intros Hm Hk t Ht. unfold bind.
  specialize (Hm t Ht).
  destruct (m t) as [a t' | f t']; cbn in *.
  - apply Hk. exact Hm.
  - exact Hm.
Qed.

Lemma keeps_modify (f : tunnel_ctx -> tunnel_ctx) :
  (forall t, trace (f t) = trace t) -> keeps_guard (modify f).
Proof. intros Hf t Ht. cbn. rewrite Hf. exact Ht. Qed.

Lemma keeps_emit (e : event) :
  connect_guarded e = true -> keeps_guard (emit e).
Proof. intros He t Ht. cbn. apply guarded_snoc; assumption. Qed.

Lemma keeps_ASSERT (b : bool) : keeps_guard (ASSERT b).
Proof. destruct b; [apply keeps_ret | apply keeps_raise]. Qed.

(** The one place where a connect is made: it follows the test of
    [can_access] on the address the connect uses. *)
Lemma keeps_do_connect_ssr_server : keeps_guard do_connect_ssr_server.
Proof.
  intros t Ht.
  destruct t as [[ird iwr ? ? ?] [ord owr ? ? oaddr] ? ? ? ? ? ? ? ?].
  unfold do_connect_ssr_server; unfold_monad; cbn in *.
  destruct ird; cbn; try exact Ht.
  destruct iwr; cbn; try exact Ht.
  destruct ord; cbn; try exact Ht.
  destruct owr; cbn; try exact Ht.
  destruct (can_access oaddr) eqn:Haccess; cbn.
  - match goal with
    | |- context [negb (?e =? 0)] => destruct (e =? 0)
    end; cbn;
      repeat (apply guarded_snoc; [| cbn; try rewrite Haccess; reflexivity]);
      exact Ht.
  - apply guarded_snoc; [exact Ht | reflexivity].
Qed.

Lemma trace_set_socket (s : sock_id) (v : socket_ctx) (t : tunnel_ctx) :
  trace (set_socket s v t) = trace t.
Proof. destruct s; reflexivity. Qed.

Ltac keeps_step :=
  first
    [ apply keeps_do_connect_ssr_server
    | apply keeps_ret
    | apply keeps_raise
    | apply keeps_get
    | apply keeps_ASSERT
    | apply keeps_emit; reflexivity
    | apply keeps_modify; intros ?; first [reflexivity | apply trace_set_socket]
    | apply keeps_bind; [| intros ?]
    | match goal with
      | |- keeps_guard (let '(_, _) := ?p in _) => destruct p
      | |- keeps_guard (if ?b then _ else _) => destruct b
      | |- keeps_guard (match ?x with _ => _ end) => destruct x
      end ].

Ltac keeps :=
  unfold socket_read, socket_write, socket_getaddrinfo,
    tunnel_shutdown, tls_client_launch, tls_client_shutdown,
    tunnel_tls_send_data, tunnel_traditional_streaming,
    buffer_create_from, buffer_clone, allocate, release, deref,
    assert_all_stop, assert_incoming_stop, latch_rdstate, latch_wrstate,
    UNREACHABLE, assert;
  repeat keeps_step.

Lemma keeps_do_socks5_reply_success : keeps_guard do_socks5_reply_success.
Proof. unfold do_socks5_reply_success. keeps. Qed.

Lemma keeps_tunnel_extract_data (s : sock_id) : keeps_guard (tunnel_extract_data s).
Proof. unfold tunnel_extract_data. keeps. Qed.

Lemma keeps_do_next (s : sock_id) : keeps_guard (do_next s).
Proof.
  pose proof keeps_do_socks5_reply_success as Hreply.
  pose proof (keeps_tunnel_extract_data s) as Hextract.
  unfold do_next, do_handshake, do_handshake_auth, do_wait_s5_request,
    do_parse_s5_request, do_resolve_ssr_server_host_aftercare,
    do_connect_ssr_server_done, do_ssr_auth_sent,
    do_ssr_receipt_for_feedback, do_launch_streaming,
    tunnel_tls_do_launch_streaming, tunnel_tls_client_incoming_streaming.
  repeat first [ apply Hreply | apply Hextract | progress keeps ].
Qed.

Lemma keeps_run_callback (cb : callback) : keeps_guard (run_callback cb).
Proof.
  pose proof keeps_do_socks5_reply_success as Hreply.
  destruct cb; cbn [run_callback]; try apply keeps_do_next.
  - apply keeps_ret.
  - unfold tunnel_tls_on_connection_established. keeps.
  - unfold tunnel_tls_on_data_received.
    repeat first [ apply Hreply | progress keeps ].
  - unfold tunnel_tls_on_shutting_down. keeps.
  - unfold tunnel_dying. keeps.
Qed.

Lemma keeps_run (turns : list turn) : keeps_guard (run turns).
Proof.
  induction turns as [| x rest IH]; cbn [run].
  - apply keeps_ret.
  - apply keeps_bind; [| intros _; exact IH].
    unfold run_turn. apply keeps_bind.
    + apply keeps_modify. intros t. reflexivity.
    + intros _. apply keeps_run_callback.
Qed.

(** C8. In every execution of a tunnel, from its construction on and up to
    a fault if there is one, a connect is made on the outgoing socket only,
    and only to an address on which the access policy [can_access] has
    answered true; when the policy answers false, the core writes the
    denial reply and the stage becomes kill, without a connect. *)
Theorem connect_only_after_access_check
    (inc out : socket_ctx) (parser0 : s5_ctx) (cfg : server_config)
    (turns : list turn) (t : tunnel_ctx) :
  (forall (s : sock_id) (a : sockaddr_universal),
   In (ev_socket_connect s a)
      (trace (final (run turns (init_done_cb inc out parser0 cfg)))) ->
   s = Outgoing /\ can_access a = true) /\
  (quiescent t ->
   can_access (addr (outgoing t)) = false ->
   do_connect_ssr_server t =
     Ok tt (set_stage tunnel_stage_kill
              (set_trace
                 (trace t ++
                  [ev_socket_write Incoming string_literal
                     [x05; x02; x00; x01; x00; x00; x00; x00; x00; x00]]) t))).
Proof.
  split.
  - intros s a Hin.
    assert (Hg : guarded (trace (final (run turns (init_done_cb inc out parser0 cfg))))).
    { apply keeps_run. reflexivity. }
    unfold guarded in Hg. rewrite forallb_forall in Hg.
    specialize (Hg _ Hin). cbn in Hg.
    apply andb_true_iff in Hg as [Hs Ha].
    split; [destruct s; [discriminate | reflexivity] | exact Ha].
  - intros Hq Hdeny. open_tunnel t.
    unfold_handlers; unfold_monad; cbn. rewrite Hdeny. reflexivity.
Qed.

End Properties.

(** ** The access policy in debug and in release builds *)

Section Policy.
Context {X : Collaborators}.

Lemma shiftr_lor_byte (x : Z) (b : byte) :
  Z.shiftr (Z.lor (Z.shiftl x 8) (byte_val b)) 8 = x.
Proof.
  pose proof (byte_val_range b) as Hb.
  rewrite Z.shiftr_lor, Z.shiftr_shiftl_l, Z.sub_diag, Z.shiftl_0_r by lia.
  rewrite (Z.shiftr_div_pow2 (byte_val b)) by lia.
  change (2 ^ 8) with 256. rewrite Z.div_small by lia.
  apply Z.lor_0_r.
Qed.

(** The first octet of an IPv4 address is the top byte of [ntohl]. *)
Lemma ntohl_bytes_top (a b c d : byte) :
  Z.shiftr (ntohl_bytes [a; b; c; d]) 24 = byte_val a.
Proof.
  unfold ntohl_bytes. cbn [firstn fold_left].
  change 24 with (8 + 8 + 8).
  rewrite <- !Z.shiftr_shiftr by lia.
  rewrite !shiftr_lor_byte.
  rewrite Z.shiftl_0_l. reflexivity.
Qed.

(** A debug build admits every address. *)
Lemma can_access_debug (a : sockaddr_universal) :
  NDEBUG = false -> can_access a = true.
Proof. intros H. unfold can_access. rewrite H. reflexivity. Qed.

(** A release build refuses 127.x.x.x. *)
Lemma can_access_release_loopback (b c d : byte) (port : Z) :
  NDEBUG = true -> can_access (sockaddr_in [x7f; b; c; d] port) = false.
Proof.
  intros H. unfold can_access. rewrite H. cbn [negb].
  rewrite ntohl_bytes_top. reflexivity.
Qed.

End Policy.

(** ** The theorems on the sample tunnel *)

Lemma handshake_method_selection_witness :
  exists t' : @tunnel_ctx sample,
    do_next Incoming
      (sample_tunnel tunnel_stage_handshake (read_done 3 [x05; x01; x00])
         idle_socket 17 None) = Ok tt t' /\
    trace t' = [ev_socket_write Incoming string_literal [x05; x00]] /\
    stage t' = tunnel_stage_handshake_replied.
Proof.
  destruct (@handshake_method_selection sample Incoming
              (sample_tunnel tunnel_stage_handshake (read_done 3 [x05; x01; x00])
                 idle_socket 17 None)
              (sample_parser 33))
    as [t' [Hrun Hsel]]; try reflexivity.
  - cbn. lia.
  - exists t'. split; [exact Hrun |]. cbn in Hsel.
    destruct Hsel as (_ & Htrace & Hstage). split; assumption.
Defined.

Lemma connect_failure_replies_witness :
  trace (final (do_next Outgoing
    (sample_tunnel tunnel_stage_resolve_ssr_server_host_done idle_socket
       (resolved (-3008) (sockaddr_other 0)) 0 None)))
    = [ev_socket_write Incoming string_literal
         [x05; x04; x00; x01; x00; x00; x00; x00; x00; x00]] /\
  trace (final (do_connect_ssr_server
    (sample_tunnel tunnel_stage_s5_request idle_socket
       (resolved 0 loopback_upstream) 0 None)))
    = [ev_socket_write Incoming string_literal
         [x05; x02; x00; x01; x00; x00; x00; x00; x00; x00]] /\
  trace (final (do_next Outgoing
    (sample_tunnel tunnel_stage_connecting_ssr_server idle_socket
       (resolved (-111) sample_upstream) 0 None)))
    = [ev_socket_write Incoming string_literal
         [x05; x05; x00; x01; x00; x00; x00; x00; x00; x00]].
Proof.
  split; [| split].
  - rewrite (proj1 (@connect_failure_replies sample Outgoing
      (sample_tunnel tunnel_stage_resolve_ssr_server_host_done idle_socket
         (resolved (-3008) (sockaddr_other 0)) 0 None)
      (conj eq_refl (conj eq_refl (conj eq_refl eq_refl)))));
      [reflexivity | reflexivity | cbn; lia].
  - rewrite (proj1 (proj2 (@connect_failure_replies sample Outgoing
      (sample_tunnel tunnel_stage_s5_request idle_socket
         (resolved 0 loopback_upstream) 0 None)
      (conj eq_refl (conj eq_refl (conj eq_refl eq_refl))))));
      reflexivity.
  - rewrite (proj2 (proj2 (@connect_failure_replies sample Outgoing
      (sample_tunnel tunnel_stage_connecting_ssr_server idle_socket
         (resolved (-111) sample_upstream) 0 None)
      (conj eq_refl (conj eq_refl (conj eq_refl eq_refl))))));
      [reflexivity | reflexivity | cbn; lia].
Defined.

(** C3 as stated fails: [initial_package_create] measures a host name with
    [strlen] and so cuts it at its first NUL byte.  For the host name
    [61 00 62], which the record could carry, [init_pkg] holds the host
    name [61] alone, and reading it back does not yield the triple. *)
Lemma host_name_cut_at_nul :
  ~ (forall (p : s5_ctx) (a : s5_atyp) (addr : list byte) (port : Z),
       0 <= port < 65536 ->
       (match a with
        | s5_atyp_ipv4 => length addr = 4
        | s5_atyp_ipv6 => length addr = 16
        | s5_atyp_host => length addr <= 255
        end)%nat ->
       holds_destination p a addr port ->
       address_record_parse (initial_package_create p) = Some (a, addr, port)).
Proof.
  intros Hclaim.
  specialize (Hclaim
    (mk_s5_ctx s5_cmd_tcp_connect s5_atyp_host [x61; x00; x62; x00] 443 0)
    s5_atyp_host [x61; x00; x62] 443).
  assert (Hcut :
    address_record_parse
      (initial_package_create
         (mk_s5_ctx s5_cmd_tcp_connect s5_atyp_host [x61; x00; x62; x00] 443 0))
    = Some (s5_atyp_host, [x61], 443)) by reflexivity.
  rewrite Hcut in Hclaim.
  assert (Hsame : Some (s5_atyp_host, [x61], 443)
                  = Some (s5_atyp_host, [x61; x00; x62], 443)).
  { apply Hclaim.
    - lia.
    - cbn. lia.
    - split; [reflexivity | split; [reflexivity |]].
      exists []. reflexivity. }
  discriminate Hsame.
Qed.

(** C4 as stated fails: on a greeting read of one byte for which the parser
    answers need-more and reports that byte as left, the core arms the read
    again; the tunnel is not shut down. *)
Lemma need_more_with_residual_rearms :
  ~ (forall (X : Collaborators) (s : sock_id) (t : @tunnel_ctx X)
            (p' : s5_ctx) (n : Z),
       stage t = tunnel_stage_handshake \/ stage t = tunnel_stage_s5_request ->
       rdstate (incoming t) = socket_done ->
       wrstate (incoming t) = socket_stop ->
       quiescent (set_incoming (set_rdstate socket_stop (incoming t)) t) ->
       0 <= result (incoming t) ->
       s5_parse (parser t) (buf (incoming t)) (result (incoming t)) = (s5_ok, p', n) ->
       n <> 0 ->
       In ev_tunnel_shutdown (trace (final (do_next s t))) /\
       ~ In (ev_socket_read Incoming true) (trace (final (do_next s t)))).
Proof.
  intros Hclaim.
  destruct (Hclaim sample Incoming
              (sample_tunnel tunnel_stage_handshake (read_done 1 [x05])
                 idle_socket 0 None)
              (sample_parser 0) 1) as [Hshut _].
  - left. reflexivity.
  - reflexivity.
  - reflexivity.
  - repeat split.
  - cbn. lia.
  - reflexivity.
  - lia.
  - cbn in Hshut. destruct Hshut as [Hshut | []]. discriminate Hshut.
Qed.

Lemma residual_bytes_handling_witness :
  trace (final (do_next Incoming
    (sample_tunnel tunnel_stage_handshake (read_done 1 [x05]) idle_socket 0 None)))
    = [ev_socket_read Incoming true] /\
  trace (final (do_next Incoming
    (sample_tunnel tunnel_stage_handshake (read_done 4 [x05; x01; x00; x05])
       idle_socket 49 None)))
    = [ev_tunnel_shutdown].
Proof.
  split.
  - rewrite (proj1 (proj1 (@residual_bytes_handling sample Incoming
      (sample_tunnel tunnel_stage_handshake (read_done 1 [x05]) idle_socket 0 None)
      s5_ok (sample_parser 0) 1
      eq_refl eq_refl ltac:(cbn; lia) eq_refl) eq_refl) eq_refl).
    reflexivity.
  - rewrite (proj2 (proj1 (@residual_bytes_handling sample Incoming
      (sample_tunnel tunnel_stage_handshake (read_done 4 [x05; x01; x00; x05])
         idle_socket 49 None)
      s5_auth_select (sample_parser 49) 1
      eq_refl eq_refl ltac:(cbn; lia) eq_refl) eq_refl)
      ltac:(discriminate) ltac:(lia)).
    reflexivity.
Defined.

Lemma feedback_branching_witness :
  (trace (final (do_next Outgoing
     (sample_tunnel tunnel_stage_ssr_auth_sent idle_socket (write_done 0) 0 (Some true))))
     = [ev_socket_read Outgoing true] /\
   trace (final (do_next Outgoing
     (sample_tunnel tunnel_stage_ssr_auth_sent idle_socket (write_done 0) 0 (Some false))))
     = [ev_alloc 1;
        ev_socket_write Incoming (heap_block 1)
          ([x05; x00; x00] ++ [x03; x0b] ++ sample_host ++ [x01; xbb]);
        ev_free 1]) /\
  (trace (final (do_next Outgoing
     (sample_tunnel tunnel_stage_ssr_waiting_feedback idle_socket
        (read_done 2 [x0a; x0b]) 0 (Some true))))
     = [ev_alloc 1; ev_alloc 2; ev_socket_write Outgoing (heap_block 2) [x01];
        ev_free 2; ev_free 1] /\
   trace (final (do_next Outgoing
     (sample_tunnel tunnel_stage_ssr_waiting_feedback idle_socket
        (read_done 2 [x0a; x0b]) 0 (Some false))))
     = [ev_alloc 1; ev_free 1; ev_alloc 2;
        ev_socket_write Incoming (heap_block 2)
          ([x05; x00; x00] ++ [x03; x0b] ++ sample_host ++ [x01; xbb]);
        ev_free 2]).
Proof.
  split; split.
  - rewrite (proj1 (@feedback_branching sample Outgoing
      (sample_tunnel tunnel_stage_ssr_auth_sent idle_socket (write_done 0) 0 (Some true))
      true _ eq_refl eq_refl ltac:(cbn; lia) eq_refl eq_refl)
      eq_refl eq_refl eq_refl).
    reflexivity.
  - rewrite (proj1 (@feedback_branching sample Outgoing
      (sample_tunnel tunnel_stage_ssr_auth_sent idle_socket (write_done 0) 0 (Some false))
      false _ eq_refl eq_refl ltac:(cbn; lia) eq_refl eq_refl)
      eq_refl eq_refl eq_refl).
    reflexivity.
  - rewrite (proj2 (@feedback_branching sample Outgoing
      (sample_tunnel tunnel_stage_ssr_waiting_feedback idle_socket
         (read_done 2 [x0a; x0b]) 0 (Some true))
      true _ eq_refl eq_refl ltac:(cbn; lia) eq_refl eq_refl)
      eq_refl eq_refl eq_refl true (Some [x01]) eq_refl).
    reflexivity.
  - rewrite (proj2 (@feedback_branching sample Outgoing
      (sample_tunnel tunnel_stage_ssr_waiting_feedback idle_socket
         (read_done 2 [x0a; x0b]) 0 (Some false))
      false _ eq_refl eq_refl ltac:(cbn; lia) eq_refl eq_refl)
      eq_refl eq_refl eq_refl false None eq_refl).
    reflexivity.
Defined.

Lemma success_reply_then_streaming_witness :
  trace (final (do_socks5_reply_success
    (sample_tunnel tunnel_stage_ssr_auth_sent idle_socket idle_socket 0 (Some false))))
    = [ev_alloc 1;
       ev_socket_write Incoming (heap_block 1)
         ([x05; x00; x00] ++ [x03; x0b] ++ sample_host ++ [x01; xbb]);
       ev_free 1] /\
  do_next Incoming
    (sample_tunnel tunnel_stage_auth_complition_done (write_done 0) idle_socket
       0 (Some false))
    = Ok tt
        (set_trace [ev_socket_read Incoming false; ev_socket_read Outgoing true]
           (sample_tunnel tunnel_stage_streaming idle_socket idle_socket 0 (Some false))).
Proof.
  split.
  - rewrite (proj1 (@success_reply_then_streaming sample Incoming
      (sample_tunnel tunnel_stage_ssr_auth_sent idle_socket idle_socket 0 (Some false))
      eq_refl eq_refl eq_refl) _ eq_refl eq_refl).
    reflexivity.
  - rewrite (proj2 (@success_reply_then_streaming sample Incoming
      (sample_tunnel tunnel_stage_auth_complition_done (write_done 0) idle_socket
         0 (Some false))
      eq_refl eq_refl eq_refl) eq_refl eq_refl eq_refl ltac:(cbn; lia)).
    reflexivity.
Defined.


Lemma connect_only_after_access_check_witness :
  In (ev_socket_connect Outgoing sample_upstream)
     (trace (final (@run sample sample_turns
        (init_done_cb idle_socket idle_socket (sample_parser 17) sample_config)))) /\
  @can_access sample sample_upstream = true /\
  trace (final (do_connect_ssr_server
    (sample_tunnel tunnel_stage_s5_request idle_socket
       (resolved 0 loopback_upstream) 0 None)))
    = [ev_socket_write Incoming string_literal
         [x05; x02; x00; x01; x00; x00; x00; x00; x00; x00]].
Proof.
  assert (Hin : In (ev_socket_connect Outgoing sample_upstream)
     (trace (final (@run sample sample_turns
        (init_done_cb idle_socket idle_socket (sample_parser 17) sample_config))))).
  { cbn. do 4 right. left. reflexivity. }
  split; [exact Hin | split].
  - exact (proj2 (proj1 (@connect_only_after_access_check sample
      idle_socket idle_socket (sample_parser 17) sample_config sample_turns
      (sample_tunnel tunnel_stage_s5_request idle_socket
         (resolved 0 loopback_upstream) 0 None))
      Outgoing sample_upstream Hin)).
  - rewrite (proj2 (@connect_only_after_access_check sample
      idle_socket idle_socket (sample_parser 17) sample_config sample_turns
      (sample_tunnel tunnel_stage_s5_request idle_socket
         (resolved 0 loopback_upstream) 0 None))
      (conj eq_refl (conj eq_refl (conj eq_refl eq_refl))) eq_refl).
    reflexivity.
Defined.

(** C9 as stated fails: the handler that writes the success reply releases
    the buffer it gave to [socket_write] before it returns, hence before
    the completion of the write can be delivered. *)
Lemma reply_buffer_released_before_completion :
  ~ (forall (X : Collaborators) (t t' : @tunnel_ctx X),
       quiescent t ->
       do_socks5_reply_success t = Ok tt t' ->
       sources_held [] (skipn (length (trace t)) (trace t')) = true).
Proof.
  intros Hclaim.
  specialize (Hclaim sample
    (sample_tunnel tunnel_stage_ssr_auth_sent idle_socket idle_socket 0 (Some false))
    _ (conj eq_refl (conj eq_refl (conj eq_refl eq_refl))) eq_refl).
  discriminate Hclaim.
Qed.

Lemma write_sources_released_after_queueing_witness :
  trace (final (do_socks5_reply_success
    (sample_tunnel tunnel_stage_ssr_auth_sent idle_socket idle_socket 0 (Some false))))
    = [ev_alloc 1;
       ev_socket_write Incoming (heap_block 1)
         ([x05; x00; x00] ++ [x03; x0b] ++ sample_host ++ [x01; xbb]);
       ev_free 1] /\
  trace (final (do_connect_ssr_server_done
    (sample_tunnel tunnel_stage_connecting_ssr_server idle_socket idle_socket
       0 (Some false))))
    = [ev_alloc 1;
       ev_socket_write Outgoing (heap_block 1)
         ([x03; x0b] ++ sample_host ++ [x01; xbb]);
       ev_free 1].
Proof.
  split.
  - rewrite (proj1 (@write_sources_released_after_queueing sample
      (sample_tunnel tunnel_stage_ssr_auth_sent idle_socket idle_socket 0 (Some false))
      _ false (conj eq_refl (conj eq_refl (conj eq_refl eq_refl))) eq_refl eq_refl)).
    reflexivity.
  - rewrite (proj2 (@write_sources_released_after_queueing sample
      (sample_tunnel tunnel_stage_connecting_ssr_server idle_socket idle_socket
         0 (Some false))
      _ false (conj eq_refl (conj eq_refl (conj eq_refl eq_refl))) eq_refl eq_refl)
      eq_refl false _ eq_refl).
    reflexivity.
Defined.

(** C10. A read in stage s5_request that delivers one byte: the handler
    calls [socks5_address_parse] three bytes into the buffer with the
    length [1 - 3] taken in [size_t], which is 2^64 - 2 on a 64-bit target,
    and only then lets the SOCKS5 parser see that the request is
    incomplete. *)
Theorem short_request_read_underflows :
  trace (final (do_next Incoming
    (sample_tunnel tunnel_stage_s5_request (read_done 1 [x05]) idle_socket 0 None)))
  = [ev_socks5_address_parse 3 (2 ^ 64 - 2); ev_socket_read Incoming true].
Proof. reflexivity. Qed.

(** * Further properties of the code *)

(** ** The access policy, in full *)

Lemma lor_shiftl_byte (x : Z) (b : byte) :
  Z.lor (Z.shiftl x 8) (byte_val b) = 256 * x + byte_val b.
Proof.
  pose proof (byte_val_range b) as Hb.
  assert (Hland : Z.land (Z.shiftl x 8) (byte_val b) = 0).
  { apply Z.bits_inj'. intros n Hn.
    rewrite Z.land_spec, Z.bits_0.
    destruct (Z.lt_ge_cases n 8) as [Hlow | Hhigh].
    - rewrite Z.shiftl_spec_low by assumption. reflexivity.
    - assert (Hmod : byte_val b = byte_val b mod 2 ^ 8).
      { symmetry. apply Z.mod_small. exact Hb. }
      rewrite Hmod, Z.mod_pow2_bits_high by lia. apply andb_false_r. }
  pose proof (Z.add_lor_land (Z.shiftl x 8) (byte_val b)) as Hadd.
  assert (Hshift : Z.shiftl x 8 = 256 * x).
  { rewrite Z.shiftl_mul_pow2 by lia. change (2 ^ 8) with 256. lia. }
  rewrite Hland in Hadd. rewrite <- Hshift. lia.
Qed.

(** [ntohl] reads four bytes as a number in base 256, most significant
    byte first. *)
Lemma ntohl_bytes_value (a b c d : byte) (rest : list byte) :
  ntohl_bytes (a :: b :: c :: d :: rest) =
  256 * (256 * (256 * byte_val a + byte_val b) + byte_val c) + byte_val d.
Proof.
  unfold ntohl_bytes. cbn [firstn fold_left].
  rewrite !lor_shiftl_byte. lia.
Qed.

Lemma byte_val_inj (a b : byte) : byte_val a = byte_val b -> a = b.
Proof.
  intros H. rewrite <- (uint8_byte_val a), <- (uint8_byte_val b), H. reflexivity.
Qed.

Lemma ntohl_bytes_eq (a b c d a' b' c' d' : byte) (rest rest' : list byte):
  ntohl_bytes (a :: b :: c :: d :: rest) = ntohl_bytes (a' :: b' :: c' :: d' :: rest') ->
  a = a' /\ b = b' /\ c = c' /\ d = d'.
Proof.
  rewrite !ntohl_bytes_value.
  pose proof (byte_val_range a). pose proof (byte_val_range b).
  pose proof (byte_val_range c). pose proof (byte_val_range d).
  pose proof (byte_val_range a'). pose proof (byte_val_range b').
  pose proof (byte_val_range c'). pose proof (byte_val_range d').
  intros Heq. repeat split; apply byte_val_inj; lia.
Qed.

Section PolicyFacts.
Context {X : Collaborators}.

(** X3. In a release build the access policy refuses exactly the loopback
    addresses: an IPv4 address is admitted unless its first octet is 127;
    an IPv6 address is refused when it is [::1] or [::ffff:127.x.y.z] and
    admitted otherwise; an address of any other family is refused. *)
Theorem can_access_release :
  NDEBUG = true ->
  (forall (a b c d : byte) (port : Z),
   can_access (sockaddr_in [a; b; c; d] port) = negb (Byte.eqb a x7f)) /\
  (forall (bs : list byte) (port : Z),
   length bs = 16%nat ->
   (can_access (sockaddr_in6 bs port) = false <->
    bs = [x00; x00; x00; x00; x00; x00; x00; x00;
          x00; x00; x00; x00; x00; x00; x00; x01] \/
    exists x y z : byte,
      bs = [x00; x00; x00; x00; x00; x00; x00; x00;
            x00; x00; xff; xff; x7f; x; y; z])) /\
  (forall (family port : Z), can_access (sockaddr_other family) = false).
Proof.
  intros Hrelease. split; [| split].
  - intros a b c d port. unfold can_access. rewrite Hrelease. cbn [negb].
    rewrite ntohl_bytes_top. f_equal.
    destruct (Byte.eqb a x7f) eqn:Ha.
    + apply Byte.byte_dec_bl in Ha. subst a. reflexivity.
    + apply Z.eqb_neq. intros Hval.
      apply Byte.eqb_false in Ha. apply Ha.
      apply byte_val_inj. exact Hval.
  - intros bs port Hlen.
    do 16 (destruct bs as [| ? bs]; [discriminate Hlen |]).
    destruct bs; [| discriminate Hlen]. clear Hlen.
    unfold can_access. rewrite Hrelease. cbn [negb skipn].
    rewrite ntohl_bytes_top.
    change 0 with (ntohl_bytes [x00; x00; x00; x00]).
    change 1 with (ntohl_bytes [x00; x00; x00; x01]).
    change 0xFFFF with (ntohl_bytes [x00; x00; xff; xff]).
    change 0x7F with (byte_val x7f).
    split.
    + intros Hdeny.
      repeat match type of Hdeny with
             | context [?u =? ?v] => destruct (Z.eqb_spec u v)
             end;
        cbn in Hdeny; try discriminate Hdeny;
        repeat match goal with
               | H : ntohl_bytes _ = ntohl_bytes _ |- _ =>
                   apply ntohl_bytes_eq in H; destruct H as (? & ? & ? & ?)
               | H : byte_val _ = byte_val _ |- _ => apply byte_val_inj in H
               end;
        subst; try discriminate; try (left; reflexivity);
        right; do 3 eexists; reflexivity.
    + intros [Heq | (x & y & z & Heq)]; inversion Heq; subst; clear Heq.
      * reflexivity.
      * rewrite !Z.eqb_refl. cbn [andb].
        destruct (ntohl_bytes [x7f; x; y; z] =? ntohl_bytes [x00; x00; x00; x01]);
          reflexivity.
  - intros family port. unfold can_access. rewrite Hrelease. reflexivity.
Qed.

End PolicyFacts.

Lemma can_access_release_witness :
  @can_access sample loopback_upstream = false /\
  @can_access sample sample_upstream = true /\
  @can_access sample
    (sockaddr_in6 [x00; x00; x00; x00; x00; x00; x00; x00;
                   x00; x00; xff; xff; x7f; x00; x00; x01] 8388) = false.
Proof.
  destruct (@can_access_release sample eq_refl) as (H4 & H6 & _).
  split; [| split].
  - exact (H4 x7f x00 x00 x01 8388).
  - exact (H4 x08 x08 x08 x08 8388).
  - apply H6; [reflexivity |]. right. do 3 eexists. reflexivity.
Defined.

(** ** More on the address record *)

Lemma strlen_le_length (s : list byte) : (strlen s <= length s)%nat.
Proof.
  induction s as [| b s IH]; cbn; [lia |].
  destruct (Byte.eqb b x00); lia.
Qed.

(** X1. Whatever the parser context holds, [init_pkg] is at least 3 and at
    most 259 bytes long: it fits a buffer of [SSR_BUFF_SIZE] bytes as soon as
    that size is 259 or more. *)
Theorem init_pkg_length_bound (p : s5_ctx) :
  (3 <= length (initial_package_create p) <= 259)%nat.
Proof.
  unfold initial_package_create, htons_bytes.
  rewrite !length_app. cbn [length].
  destruct (atyp p).
  - pose proof (firstn_le_length 4 (daddr p)). lia.
  - pose proof (firstn_le_length 16 (daddr p)). lia.
  - cbn [length].
    match goal with
    | |- context [firstn ?n ?l] => pose proof (firstn_le_length n l) as Hle
    end.
    pose proof (byte_val_range (uint8 (Z.of_nat (strlen (daddr p))))) as Hb.
    lia.
Qed.

Lemma parse_port_htons (port : Z) :
  parse_port (htons_bytes port) = Some (port mod 65536).
Proof.
  rewrite htons_bytes_split. unfold parse_port.
  rewrite !byte_val_uint8, Z.mod_mod by lia.
  f_equal. change 65536 with (256 * 256).
  rewrite Z.rem_mul_r by lia. lia.
Qed.

Lemma parse_fixed_firstn (a : s5_atyp) (n : nat) (l : list byte) (port : Z) :
  (n <= length l)%nat ->
  parse_fixed a n (firstn n l ++ htons_bytes port)
  = Some (a, firstn n l, port mod 65536).
Proof.
  intros Hn. unfold parse_fixed.
  assert (Hlen : length (firstn n l) = n) by (apply firstn_length_le; exact Hn).
  remember (firstn n l) as f eqn:Hf. clear Hf Hn. subst n.
  rewrite length_app.
  destruct (Nat.ltb_spec (length f + length (htons_bytes port)) (length f))
    as [Hlt | _]; [cbn in Hlt; lia |].
  rewrite skipn_length_app, firstn_length_app, parse_port_htons.
  reflexivity.
Qed.

(** X2. Reading [init_pkg] back never fails and gives what the record can
    carry of the context: the first 4 or 16 bytes of [daddr]; for a host
    name the bytes before the first NUL, cut to their count modulo 256; the
    port modulo 65536.  A host name with a NUL inside, or of 256 bytes and
    more, does not come back whole. *)
Theorem init_pkg_reparse (p : s5_ctx) :
  (16 <= length (daddr p))%nat ->
  address_record_parse (initial_package_create p) =
  Some (atyp p,
        match atyp p with
        | s5_atyp_ipv4 => firstn 4 (daddr p)
        | s5_atyp_ipv6 => firstn 16 (daddr p)
        | s5_atyp_host =>
            firstn (Z.to_nat (Z.of_nat (strlen (daddr p)) mod 256)) (daddr p)
        end,
        dport p mod 65536).
Proof.
  intros Hlen. unfold initial_package_create, address_record_parse.
  destruct (atyp p); cbn [app]; rewrite s5_atyp_of_byte_code.
  - apply parse_fixed_firstn. lia.
  - apply parse_fixed_firstn. lia.
  - rewrite byte_val_uint8. apply parse_fixed_firstn.
    pose proof (strlen_le_length (daddr p)).
    pose proof (Z.mod_le (Z.of_nat (strlen (daddr p))) 256).
    pose proof (Z.mod_pos_bound (Z.of_nat (strlen (daddr p))) 256).
    lia.
Qed.

Lemma init_pkg_reparse_witness :
  address_record_parse
    (initial_package_create
       (mk_s5_ctx s5_cmd_tcp_connect s5_atyp_host
          ([x61; x62; x00; x63] ++ repeat x00 253) 65537 0))
  = Some (s5_atyp_host, [x61; x62], 1).
Proof.
  rewrite init_pkg_reparse; [reflexivity | cbn; lia].
Defined.

Lemma strlen_prefix_no_nul (s : list byte) (k : nat) :
  (k <= strlen s)%nat ->
  forallb (fun b => negb (Byte.eqb b x00)) (firstn k s) = true.
Proof.
  revert k. induction s as [| b s IH]; intros k Hk.
  - destruct k; reflexivity.
  - destruct k as [| k]; [reflexivity |].
    cbn in Hk |- *. destruct (Byte.eqb b x00); [lia |].
    cbn. apply IH. lia.
Qed.

(** X21. For a host name, [init_pkg] is well formed whatever [daddr]
    holds: the type byte 03, a length byte, exactly that many host bytes,
    none of them NUL, and the two bytes of the port, most significant
    first. *)
Theorem init_pkg_host_well_formed (p : s5_ctx) :
  atyp p = s5_atyp_host ->
  exists (host : list byte) (hi lo : byte),
    initial_package_create p =
      x03 :: uint8 (Z.of_nat (length host)) :: host ++ [hi; lo] /\
    (length host <= 255)%nat /\
    forallb (fun b => negb (Byte.eqb b x00)) host = true /\
    256 * byte_val hi + byte_val lo = dport p mod 65536.
Proof.
  intros Hhost.
  pose proof (strlen_le_length (daddr p)) as Hle.
  pose proof (Z.mod_pos_bound (Z.of_nat (strlen (daddr p))) 256) as Hmod.
  pose proof (Z.mod_le (Z.of_nat (strlen (daddr p))) 256) as Hmodle.
  set (n := Z.to_nat (Z.of_nat (strlen (daddr p)) mod 256)).
  assert (Hn : (n <= strlen (daddr p))%nat) by (subst n; lia).
  assert (Hlen : length (firstn n (daddr p)) = n)
    by (apply firstn_length_le; lia).
  exists (firstn n (daddr p)), (uint8 (dport p / 256)), (uint8 (dport p mod 256)).
  repeat split.
  - unfold initial_package_create. rewrite Hhost, htons_bytes_split.
    cbn [s5_atyp_code app]. rewrite byte_val_uint8. fold n.
    rewrite Hlen. subst n. rewrite Z2Nat.id by lia.
    rewrite !uint8_mod. reflexivity.
  - rewrite Hlen. subst n. lia.
  - apply strlen_prefix_no_nul. exact Hn.
  - pose proof (parse_port_htons (dport p)) as Hport.
    rewrite htons_bytes_split in Hport. cbn in Hport.
    injection Hport as Hport. exact Hport.
Qed.

Lemma init_pkg_host_well_formed_witness :
  exists (host : list byte) (hi lo : byte),
    initial_package_create (sample_parser 0) =
      x03 :: uint8 (Z.of_nat (length host)) :: host ++ [hi; lo] /\
    (length host <= 255)%nat /\
    forallb (fun b => negb (Byte.eqb b x00)) host = true /\
    256 * byte_val hi + byte_val lo = 443.
Proof.
  exact (init_pkg_host_well_formed (sample_parser 0) eq_refl).
Defined.

(** ** The paths through the handlers *)

Section Further.

Context {X : Collaborators}.

(** Unfolding the monad and every handler. *)
Ltac unfold_monad :=
  unfold socket_read, socket_write, socket_getaddrinfo, socket_connect,
    tunnel_shutdown, tls_client_launch, tls_client_shutdown,
    tunnel_tls_send_data, tunnel_traditional_streaming,
    buffer_create_from, buffer_clone, allocate, release, deref,
    assert_all_stop, assert_incoming_stop, latch_rdstate, latch_wrstate,
    UNREACHABLE, assert, ASSERT, emit, modify, get, raise, bind, ret.

Ltac unfold_all :=
  unfold run_callback, do_next, do_handshake, do_handshake_auth,
    do_wait_s5_request, do_parse_s5_request,
    do_resolve_ssr_server_host_aftercare, do_connect_ssr_server_done,
    do_ssr_auth_sent, do_ssr_receipt_for_feedback, do_launch_streaming,
    tunnel_tls_do_launch_streaming, tunnel_tls_client_incoming_streaming,
    tunnel_tls_on_connection_established, tunnel_tls_on_data_received,
    tunnel_tls_on_shutting_down, tunnel_extract_data, tunnel_dying,
    do_connect_ssr_server, do_socks5_reply_success;
  unfold_monad.

(** One step of the exploration of a handler: a case distinction on the
    innermost scrutinee that stands in the way. *)
Ltac explore_step :=
  match goal with
  | |- context [match ?x with _ => _ end] =>
      lazymatch x with
      | context [match _ with _ => _ end] => fail
      | _ => destruct x eqn:?
      end
  end.

Ltac explore := cbn; repeat (explore_step; cbn).

(** The same, taking a state of a socket apart rather than the test made
    on it. *)
Ltac explore_states_step :=
  match goal with
  | |- context [socket_state_eqb ?v _] => is_var v; destruct v
  | |- context [match ?x with _ => _ end] =>
      lazymatch x with
      | context [match _ with _ => _ end] => fail
      | _ => destruct x eqn:?
      end
  end.

Ltac explore_states := cbn; repeat (explore_states_step; cbn).

(** The tunnel in its fields, the callback in its cases. *)
Ltac open_callback cb t :=
  destruct t as [[ird iwr ires ibuf iaddr] [ord owr ores obuf oaddr]
                   da ci ip pa st cf tr nb];
  destruct cb as [[]|[]|[]|[]|[]| |?| | ];
  cbn [run_callback];
  try match goal with
      | |- context [do_next] => destruct st
      end.

(** A tunnel in its fields, the equations on the fields substituted. *)
Ltac fields t :=
  destruct t as [[ird iwr ires ibuf iaddr] [ord owr ores obuf oaddr]
                   da ci ip pa st cf tr nb];
  unfold quiescent in *; cbn in *;
  repeat match goal with H : _ /\ _ |- _ => destruct H end;
  subst.

(** Rewriting with what the hypotheses say of the tests the handlers
    make. *)
Ltac decide_tests :=
  repeat
    (match goal with
     | H : 0 <= ?r |- context [?r <? 0] => rewrite (proj2 (Z.ltb_ge r 0) H)
     | H : ?r < 0 |- context [?r <? 0] => rewrite (proj2 (Z.ltb_lt r 0) H)
     | H : ?r <> 0 |- context [?r =? 0] => rewrite (proj2 (Z.eqb_neq r 0) H)
     | H : ?r = 0 |- context [?r =? 0] => rewrite (proj2 (Z.eqb_eq r 0) H)
     | H : ?a = _ |- context [?a] => rewrite H
     end; cbn).

Ltac run_path := unfold_all; cbn; decide_tests; rewrite <- ?app_assoc.

(** X4. A failed read or write shuts the tunnel down and does nothing else:
    in the stages handshake, handshake_replied, s5_request and
    ssr_auth_sent, and in auth_complition_done without TLS, a negative
    result of the completed operation gives the single call
    [tunnel_shutdown]; the stage is kept, nothing is written, no read is
    armed.  With TLS, auth_complition_done shuts the TLS client down
    instead. *)
Theorem io_error_shuts_down (s : sock_id) (t : tunnel_ctx)
    (sk : sock_id) (d : direction) :
  entry_completion (stage t) = Some (sk, d) ->
  state_of d (socket_of sk t) = socket_done ->
  result (socket_of sk t) < 0 ->
  let t1 := set_socket sk (set_state d socket_stop (socket_of sk t)) t in
  quiescent t1 ->
  (In (stage t)
      [tunnel_stage_handshake; tunnel_stage_handshake_replied;
       tunnel_stage_s5_request; tunnel_stage_ssr_auth_sent] \/
   stage t = tunnel_stage_auth_complition_done /\
   over_tls_enable (config t) = false ->
   do_next s t = Ok tt (set_trace (trace t ++ [ev_tunnel_shutdown]) t1)) /\
  (stage t = tunnel_stage_auth_complition_done /\
   over_tls_enable (config t) = true ->
   do_next s t = Ok tt (set_trace (trace t ++ [ev_tls_client_shutdown]) t1)).
Proof.
  intros Hentry Hdone Hres t1 Hq. subst t1. split.
  - intros [Hin | [Hstage Htls]].
    + cbn in Hin.
      destruct Hin as [Hst | [Hst | [Hst | [Hst | []]]]];
        rewrite <- Hst in Hentry; cbn in Hentry; inversion Hentry; subst sk d;
        fields t; run_path; reflexivity.
    + rewrite Hstage in Hentry; cbn in Hentry; inversion Hentry; subst sk d.
      fields t. run_path. reflexivity.
  - intros [Hstage Htls].
    rewrite Hstage in Hentry; cbn in Hentry; inversion Hentry; subst sk d.
    fields t. run_path. reflexivity.
Qed.


(** X5. The feedback stages do not stop on an I/O error.  In stage
    ssr_receipt_of_feedback_sent the result of the write is not looked at:
    whatever it is, the success reply is written to the client.  In stage
    ssr_waiting_feedback a failed read calls [tunnel_shutdown] and then
    writes the success reply all the same. *)
Theorem feedback_stage_errors (s : sock_id) (t : tunnel_ctx) (pkg : buffer_t) :
  init_pkg t = Some pkg ->
  rdstate (incoming t) = socket_stop ->
  wrstate (incoming t) = socket_stop ->
  let b := next_block t in
  let reply :=
    [ev_alloc b;
     ev_socket_write Incoming (heap_block b) ([x05; x00; x00] ++ buffer pkg);
     ev_free b] in
  (stage t = tunnel_stage_ssr_receipt_of_feedback_sent ->
   rdstate (outgoing t) = socket_stop ->
   wrstate (outgoing t) = socket_done ->
   trace (final (do_next s t)) = trace t ++ reply /\
   stage (final (do_next s t)) = tunnel_stage_auth_complition_done) /\
  (stage t = tunnel_stage_ssr_waiting_feedback ->
   rdstate (outgoing t) = socket_done ->
   wrstate (outgoing t) = socket_stop ->
   result (outgoing t) < 0 ->
   trace (final (do_next s t)) = trace t ++ ev_tunnel_shutdown :: reply /\
   stage (final (do_next s t)) = tunnel_stage_auth_complition_done).
Proof.
  intros Hpkg Hird Hiwr b reply. subst b reply. split.
  - intros Hstage Hord Howr. fields t. run_path. split; reflexivity.
  - intros Hstage Hord Howr Hres. fields t. run_path. split; reflexivity.
Qed.

(** X6. A parsed request that is not CONNECT.  BIND shuts the tunnel down
    without a reply.  UDP ASSOCIATE writes to the client the package that
    [build_udp_assoc_package] makes of the configuration and of the bytes
    received, and the stage becomes s5_udp_accoc; when that write is done
    the tunnel is shut down, whatever the result of the write.  No cipher
    and no [init_pkg] is made on the way. *)
Theorem request_other_than_connect (s : sock_id) (t : tunnel_ctx) (p' : s5_ctx) :
  quiescent (set_incoming (set_rdstate socket_stop (incoming t)) t) ->
  (stage t = tunnel_stage_s5_request ->
   rdstate (incoming t) = socket_done ->
   0 <= result (incoming t) ->
   s5_parse (parser t) (buf (incoming t)) (result (incoming t))
     = (s5_exec_cmd, p', 0) ->
   let parsed := ev_socks5_address_parse 3 (size_t_sub (result (incoming t)) 3) in
   let t' := final (do_next s t) in
   match cmd p' with
   | s5_cmd_tcp_bind =>
       trace t' = trace t ++ [parsed; ev_tunnel_shutdown] /\
       stage t' = tunnel_stage_s5_request /\
       cipher t' = cipher t /\ init_pkg t' = init_pkg t
   | s5_cmd_udp_assoc =>
       trace t' =
         trace t ++
         [parsed; ev_alloc (next_block t);
          ev_socket_write Incoming (heap_block (next_block t))
            (build_udp_assoc_package (udp (config t)) (listen_host (config t))
               (listen_port (config t)) (buf (incoming t))
               (Z.of_nat (length (buf (incoming t)))))] /\
       stage t' = tunnel_stage_s5_udp_accoc /\
       cipher t' = cipher t /\ init_pkg t' = init_pkg t
   | s5_cmd_tcp_connect => True
   end) /\
  (stage t = tunnel_stage_s5_udp_accoc ->
   rdstate (incoming t) = socket_stop ->
   forall (r : socket_ctx),
   wrstate r = socket_done ->
   trace (final (do_next s (set_incoming r t))) = trace t ++ [ev_tunnel_shutdown]).
Proof.
  intros Hq. split.
  - intros Hstage Hrd Hres Hparse parsed t'. subst parsed t'.
    fields t. destruct (cmd p') eqn:Hcmd; [exact I | |];
      run_path; repeat split; reflexivity.
  - intros Hstage Hrd r Hwr. destruct r as [rrd rwr rres rbuf raddr].
    fields t. run_path. reflexivity.
Qed.

(** X7. A parsed CONNECT request.  [init_pkg] becomes the record
    [initial_package_create] makes of the parser context, and the cipher
    is created with its server info set from [SSR_BUFF_SIZE] and the head
    size of that record.  Then: with TLS the TLS client is launched, stage
    tls_connecting.  Without TLS and with a remote host that is not a
    literal address, the name is handed to [socket_getaddrinfo], stage
    resolve_ssr_server_host_done.  With a literal address, that address is
    stored in the outgoing socket and put to the access policy: refused, it
    gives the reply 05 02 and stage kill; admitted, the connect is started,
    stage connecting_ssr_server; and if the connect cannot be started the
    tunnel is shut down in stage s5_request, with no reply to the client. *)
Theorem connect_request_launch (s : sock_id) (t : tunnel_ctx) (p' : s5_ctx) :
  stage t = tunnel_stage_s5_request ->
  rdstate (incoming t) = socket_done ->
  quiescent (set_incoming (set_rdstate socket_stop (incoming t)) t) ->
  0 <= result (incoming t) ->
  s5_parse (parser t) (buf (incoming t)) (result (incoming t))
    = (s5_exec_cmd, p', 0) ->
  cmd p' = s5_cmd_tcp_connect ->
  let b := next_block t in
  let pkg := mk_buffer_t b (initial_package_create p') in
  let c := set_server_info (tunnel_cipher_create (config t) 1452) SSR_BUFF_SIZE
             (get_s5_head_size (buffer pkg) (len pkg) 30) in
  let parsed := ev_socks5_address_parse 3 (size_t_sub (result (incoming t)) 3) in
  let t' := final (do_next s t) in
  init_pkg t' = Some pkg /\ cipher t' = Some c /\
  if over_tls_enable (config t) then
    trace t' = trace t ++ [parsed; ev_alloc b; ev_tls_client_launch] /\
    stage t' = tunnel_stage_tls_connecting
  else
    match convert_universal_address (remote_host (config t))
            (remote_port (config t)) with
    | None =>
        trace t' =
          trace t ++
          [parsed; ev_alloc b;
           ev_socket_getaddrinfo Outgoing (remote_host (config t))] /\
        stage t' = tunnel_stage_resolve_ssr_server_host_done
    | Some a =>
        addr (outgoing t') = a /\
        if can_access a then
          if socket_connect_status (set_addr a (outgoing t)) =? 0 then
            trace t' =
              trace t ++ [parsed; ev_alloc b; ev_socket_connect Outgoing a] /\
            stage t' = tunnel_stage_connecting_ssr_server
          else
            trace t' =
              trace t ++
              [parsed; ev_alloc b; ev_socket_connect Outgoing a;
               ev_tunnel_shutdown] /\
            stage t' = tunnel_stage_s5_request
        else
          trace t' =
            trace t ++
            [parsed; ev_alloc b;
             ev_socket_write Incoming string_literal
               [x05; x02; x00; x01; x00; x00; x00; x00; x00; x00]] /\
          stage t' = tunnel_stage_kill
    end.
Proof.
  intros Hstage Hrd Hq Hres Hparse Hcmd b pkg c parsed t'.
  subst b pkg c parsed t'.
  fields t. unfold_all; cbn. decide_tests.
  destruct (over_tls_enable cf); cbn.
  - rewrite <- ?app_assoc. repeat split; reflexivity.
  - destruct (convert_universal_address (remote_host cf) (remote_port cf))
      as [a |]; cbn.
    + destruct (can_access a); cbn.
      * match goal with
        | |- context [negb (?e =? 0)] => destruct (e =? 0)
        end; cbn; rewrite <- ?app_assoc; repeat split; reflexivity.
      * rewrite <- ?app_assoc. repeat split; reflexivity.
    + rewrite <- ?app_assoc. repeat split; reflexivity.
Qed.

(** X8. After a name resolution that succeeded, the port of the resolved
    address is replaced by [remote_port] of the configuration, for IPv4 and
    for IPv6 alike, before the address goes to the access policy and to
    the connect; an address of another family is unreachable code. *)
Theorem resolved_port_patched (s : sock_id) (t : tunnel_ctx) :
  stage t = tunnel_stage_resolve_ssr_server_host_done ->
  quiescent t ->
  0 <= result (outgoing t) ->
  let t' := final (do_next s t) in
  match addr (outgoing t) with
  | sockaddr_other _ => do_next s t = Fault unreachable_reached t
  | resolved_addr =>
      let patched :=
        match resolved_addr with
        | sockaddr_in a _ => sockaddr_in a (remote_port (config t))
        | sockaddr_in6 a _ => sockaddr_in6 a (remote_port (config t))
        | other => other
        end in
      addr (outgoing t') = patched /\
      (can_access patched = true ->
       socket_connect_status (set_addr patched (outgoing t)) = 0 ->
       trace t' = trace t ++ [ev_socket_connect Outgoing patched] /\
       stage t' = tunnel_stage_connecting_ssr_server)
  end.
Proof.
  intros Hstage Hq Hres t'. subst t'.
  fields t. destruct oaddr as [a p | a p | f]; unfold_all; cbn; decide_tests.
  - split.
    + destruct (can_access (sockaddr_in a (remote_port cf))); cbn;
        [| reflexivity].
      match goal with
      | |- context [negb (?e =? 0)] => destruct (e =? 0)
      end; reflexivity.
    + intros Hacc Hconn. rewrite Hacc. cbn. rewrite Hconn. cbn.
      split; reflexivity.
  - split.
    + destruct (can_access (sockaddr_in6 a (remote_port cf))); cbn;
        [| reflexivity].
      match goal with
      | |- context [negb (?e =? 0)] => destruct (e =? 0)
      end; reflexivity.
    + intros Hacc Hconn. rewrite Hacc. cbn. rewrite Hconn. cbn.
      split; reflexivity.
  - reflexivity.
Qed.

(** The cast to [size_t] leaves the result of a read that has succeeded as
    it is. *)
Lemma size_t_cast_small (z : Z) : 0 <= z < 2 ^ size_t_bits -> size_t_cast z = z.
Proof. intros Hz. unfold size_t_cast. apply Z.mod_small. exact Hz. Qed.

(** X9. One turn of the streaming over TLS, on the incoming socket.  When a
    write to the client is done, the state is set to stop and nothing else
    happens.  When a read from the client is done and has succeeded (its
    result is not negative), the bytes read are encrypted and handed to the
    TLS transport from a buffer that is released after the call, or, if the
    cipher fails, the TLS client is shut down; in both cases the read on
    the incoming socket is armed again. *)
Theorem tls_streaming_turn (t : tunnel_ctx) (c : cipher_ctx) :
  stage t = tunnel_stage_tls_streaming ->
  cipher t = Some c ->
  (wrstate (incoming t) = socket_done ->
   rdstate (incoming t) <> socket_done ->
   do_next Incoming t =
     Ok tt (set_incoming (set_wrstate socket_stop (incoming t)) t)) /\
  (rdstate (incoming t) = socket_done ->
   wrstate (incoming t) <> socket_done ->
   0 <= result (incoming t) < 2 ^ size_t_bits ->
   forall (e : ssr_error) (c' : cipher_ctx) (bytes : list byte),
   tunnel_cipher_client_encrypt c
     (firstn (Z.to_nat (result (incoming t))) (buf (incoming t)))
     = (e, c', bytes) ->
   let b := next_block t in
   trace (final (do_next Incoming t)) =
     trace t ++
     (if is_ssr_ok e then
        [ev_alloc b; ev_alloc (S b); ev_free b;
         ev_tls_send_data (heap_block (S b)) bytes; ev_free (S b);
         ev_socket_read Incoming false]
      else
        [ev_alloc b; ev_free b; ev_tls_client_shutdown;
         ev_socket_read Incoming false]) /\
   stage (final (do_next Incoming t)) = tunnel_stage_tls_streaming).
Proof.
  intros Hstage Hc. split.
  - intros Hwr Hrd. fields t.
    unfold_all; cbn. destruct ird; try congruence; reflexivity.
  - intros Hrd Hwr Hres e c' bytes Henc b. subst b.
    pose proof (size_t_cast_small _ Hres) as Hcast. clear Hres.
    fields t. unfold_all; cbn.
    destruct iwr; try congruence; cbn; rewrite Hcast, take_firstn, Henc; cbn;
      destruct (is_ssr_ok e); cbn; rewrite <- ?app_assoc;
      split; reflexivity.
Qed.

(** X10. The first exchange over TLS.  When the TLS connection is
    established, the encrypted clone of [init_pkg] is handed to the TLS
    transport and the stage becomes tls_first_package; if the cipher
    fails, the TLS client is shut down and the stage is kept.  When data
    arrives in stage tls_first_package and is decrypted without feedback,
    the success reply is written to the client and the stage becomes
    auth_complition_done; if the cipher fails, the TLS client is shut
    down.  Data that arrives in any other stage fails an assertion. *)
Theorem tls_first_package_exchange (t : tunnel_ctx) (pkg : buffer_t)
    (c : cipher_ctx) (data : list byte) :
  quiescent t ->
  init_pkg t = Some pkg ->
  cipher t = Some c ->
  let b := next_block t in
  (forall (e : ssr_error) (c' : cipher_ctx) (bytes : list byte),
   tunnel_cipher_client_encrypt c (buffer pkg) = (e, c', bytes) ->
   let t' := final (tunnel_tls_on_connection_established t) in
   if is_ssr_ok e then
     trace t' =
       trace t ++ [ev_alloc b; ev_tls_send_data (heap_block b) bytes; ev_free b] /\
     stage t' = tunnel_stage_tls_first_package
   else
     trace t' = trace t ++ [ev_alloc b; ev_tls_client_shutdown; ev_free b] /\
     stage t' = stage t) /\
  (stage t = tunnel_stage_tls_first_package ->
   forall (e : ssr_error) (c' : cipher_ctx) (rest : list byte),
   tunnel_cipher_client_decrypt c data = (e, c', rest, None) ->
   let t' := final (tunnel_tls_on_data_received data t) in
   if is_ssr_ok e then
     trace t' =
       trace t ++
       [ev_alloc b; ev_alloc (S b);
        ev_socket_write Incoming (heap_block (S b))
          ([x05; x00; x00] ++ buffer pkg);
        ev_free (S b); ev_free b] /\
     stage t' = tunnel_stage_auth_complition_done
   else
     trace t' = trace t ++ [ev_alloc b; ev_tls_client_shutdown; ev_free b] /\
     stage t' = tunnel_stage_tls_first_package) /\
  (stage t <> tunnel_stage_tls_first_package ->
   tunnel_tls_on_data_received data t = Fault assertion_failed t).
Proof.
  intros Hq Hpkg Hc b. subst b. split; [| split].
  - intros e c' bytes Henc t'. subst t'. fields t.
    unfold_all; cbn. rewrite Henc. cbn.
    destruct (is_ssr_ok e); cbn; rewrite <- ?app_assoc; split; reflexivity.
  - intros Hstage e c' rest Hdec t'. subst t'. fields t.
    unfold_all; cbn. rewrite Hdec. cbn.
    destruct (is_ssr_ok e); cbn; try destruct NDEBUG; cbn;
      rewrite <- ?app_assoc; split; reflexivity.
  - intros Hstage. fields t.
    unfold_all; cbn. destruct st; try congruence; reflexivity.
Qed.

(** ** What holds of every callback *)

Lemma skipn_length_self {A : Type} (l : list A) : skipn (length l) l = [].
Proof. apply skipn_all. Qed.

(** The events added, once the final trace is known. *)
Ltac settle_events :=
  unfold new_events; cbn [trace final set_trace];
  rewrite <- ?app_assoc;
  first [rewrite skipn_length_app | rewrite skipn_length_self];
  cbn [app].

(** X12. Whatever callback is entered and whatever the tunnel holds, the
    callback queues at most one write and arms at most one read on each of
    the two sockets, and starts at most one connect or name resolution. *)
Theorem callback_io_once (cb : callback) (t : tunnel_ctx) :
  one_io_per_socket (new_events t (final (run_callback cb t))) = true.
Proof.
  open_callback cb t; unfold_all; explore; settle_events; reflexivity.
Qed.


Ltac settle_blocks :=
  repeat (match goal with
          | |- context [block_eqb ?a ?b] =>
              first
                [ replace (block_eqb a b) with true
                    by (symmetry; apply Nat.eqb_eq; lia)
                | replace (block_eqb a b) with false
                    by (symmetry; apply Nat.eqb_neq; lia) ]
          end; cbn).


Theorem callback_extends_trace (cb : callback) (t : tunnel_ctx) :
  trace (final (run_callback cb t)) =
  trace t ++ new_events t (final (run_callback cb t)).
Proof.
  open_callback cb t; unfold_all; explore; settle_events;
    first [reflexivity | symmetry; apply app_nil_r].
Qed.

(** X14. When a callback calls [tunnel_shutdown] it is the last thing it
    does, and it has armed no read and written nothing before: a tunnel
    that is shut down gets no reply in the same callback.  The one
    exception is a failed read in stage ssr_waiting_feedback, which the
    hypothesis leaves out. *)
Theorem shutdown_is_last (cb : callback) (t : tunnel_ctx) :
  (stage t = tunnel_stage_ssr_waiting_feedback -> 0 <= result (outgoing t)) ->
  shutdown_alone (new_events t (final (run_callback cb t))) = true.
Proof.
  intros Hfeedback.
  open_callback cb t; cbn in Hfeedback; unfold_all; explore; settle_events;
    first
      [ reflexivity
      | exfalso;
        match goal with
        | H : (?r <? 0) = true |- _ =>
            apply Z.ltb_lt in H; specialize (Hfeedback eq_refl); lia
        end ].
Qed.

(** X15. A callback moves a tunnel into stage kill only with one of the
    four refusals as the last thing it has queued: 05 FF, or one of the
    three 10-byte replies, written to the incoming socket from a string
    literal. *)
Theorem kill_only_after_refusal (cb : callback) (t : tunnel_ctx) :
  stage (final (run_callback cb t)) = tunnel_stage_kill ->
  stage t = tunnel_stage_kill \/
  last_event_is is_refusal (new_events t (final (run_callback cb t))) = true.
Proof.
  open_callback cb t; unfold_all; explore; intros Hkill;
    try discriminate Hkill;
    first [ left; reflexivity | left; exact Hkill
          | right; settle_events; reflexivity ].
Qed.

Theorem cipher_and_init_pkg_together (cb : callback) (t : tunnel_ctx) :
  is_some (cipher t) = is_some (init_pkg t) ->
  is_some (cipher (final (run_callback cb t)))
  = is_some (init_pkg (final (run_callback cb t))).
Proof.
  intros Hboth.
  open_callback cb t; cbn in Hboth;
    unfold_all; explore; first [reflexivity | exact Hboth | discriminate Hboth].
Qed.

(** X16. A callback that ends in a fault (a failed assertion, unreachable
    code, a null pointer) has reached no peer: it has armed no read,
    queued no write, started no connect and no name resolution and handed
    nothing to the TLS transport. *)
Theorem fault_before_io (cb : callback) (t : tunnel_ctx) :
  is_fault (run_callback cb t) = true ->
  forallb (fun e => negb (is_io e)) (new_events t (final (run_callback cb t)))
  = true.
Proof.
  open_callback cb t; unfold_all; explore; intros Hfault;
    try discriminate Hfault; settle_events; reflexivity.
Qed.


(** *** From callbacks to executions *)

Lemma run_invariant (I : tunnel_ctx -> Prop) :
  (forall (inc out : socket_ctx) (t : tunnel_ctx),
   I t -> I (set_outgoing out (set_incoming inc t))) ->
  (forall (cb : callback) (t : tunnel_ctx), I t -> I (final (run_callback cb t))) ->
  forall (turns : list turn) (t : tunnel_ctx), I t -> I (final (run turns t)).
Proof.
  intros Hshim Hcb turns.
  induction turns as [| x rest IH]; intros t Ht; cbn [run].
  - exact Ht.
  - unfold bind at 1.
    assert (Hturn : I (final (run_turn x t))).
    { unfold run_turn, bind, modify. apply Hcb, Hshim, Ht. }
    destruct (run_turn x t) as [[] t' | f t']; cbn in Hturn |- *.
    + apply IH. exact Hturn.
    + exact Hturn.
Qed.

(** X18. In every execution of a tunnel from its construction, the cipher
    and [init_pkg] exist together: both are absent, or both are present. *)
Theorem cipher_and_init_pkg_in_step
    (inc out : socket_ctx) (parser0 : s5_ctx) (cfg : server_config)
    (turns : list turn) :
  let t := final (run turns (init_done_cb inc out parser0 cfg)) in
  is_some (cipher t) = is_some (init_pkg t).
Proof.
  cbv zeta.
  apply (run_invariant (fun t => is_some (cipher t) = is_some (init_pkg t))).
  - intros inc' out' t Ht. exact Ht.
  - intros cb t Ht. apply cipher_and_init_pkg_together. exact Ht.
  - reflexivity.
Qed.

Lemma callback_never_denies_in_debug (cb : callback) (t : tunnel_ctx) :
  NDEBUG = false ->
  forallb (fun e => negb (is_denial e)) (new_events t (final (run_callback cb t)))
  = true.
Proof.
  intros Hdebug.
  open_callback cb t; unfold_all; unfold can_access; rewrite ?Hdebug;
    explore; settle_events; reflexivity.
Qed.

(** X19. In a debug build (without [NDEBUG]) no execution of a tunnel ever
    writes the reply 05 02, connection not allowed: the access policy
    admits every address, loopback included. *)
Theorem debug_build_never_denies
    (inc out : socket_ctx) (parser0 : s5_ctx) (cfg : server_config)
    (turns : list turn) :
  NDEBUG = false ->
  ~ In (ev_socket_write Incoming string_literal
          [x05; x02; x00; x01; x00; x00; x00; x00; x00; x00])
       (trace (final (run turns (init_done_cb inc out parser0 cfg)))).
Proof.
  intros Hdebug Hin.
  assert (Hall : forallb (fun e => negb (is_denial e))
            (trace (final (run turns (init_done_cb inc out parser0 cfg)))) = true).
  { apply (run_invariant
             (fun t => forallb (fun e => negb (is_denial e)) (trace t) = true)).
    - intros inc' out' t Ht. exact Ht.
    - intros cb t Ht. rewrite callback_extends_trace, forallb_app, Ht.
      apply callback_never_denies_in_debug. exact Hdebug.
    - reflexivity. }
  rewrite forallb_forall in Hall. specialize (Hall _ Hin). discriminate Hall.
Qed.

Lemma tls_callback_leaves_outgoing (cb : callback) (t : tunnel_ctx) :
  over_tls_enable (config t) = true ->
  tls_path_stage (stage t) = true ->
  tls_path_stage (stage (final (run_callback cb t))) = true /\
  config (final (run_callback cb t)) = config t /\
  forallb (fun e => negb (on_outgoing e))
    (new_events t (final (run_callback cb t))) = true.
Proof.
  intros Htls Hstage.
  open_callback cb t; cbn in Htls, Hstage; try discriminate Hstage;
    unfold_all; cbn; rewrite ?Htls; explore; try discriminate Htls;
    (split; [first [reflexivity | exact Hstage]
            | split; [reflexivity | settle_events; reflexivity]]).
Qed.

(** X20. With TLS enabled, no execution of a tunnel from its construction
    ever reads from, writes to, connects or resolves a name for the
    outgoing socket: the upstream is reached through the TLS transport
    only. *)
Theorem tls_never_uses_outgoing
    (inc out : socket_ctx) (parser0 : s5_ctx) (cfg : server_config)
    (turns : list turn) (e : event) :
  over_tls_enable cfg = true ->
  In e (trace (final (run turns (init_done_cb inc out parser0 cfg)))) ->
  on_outgoing e = false.
Proof.
  intros Htls Hin.
  assert (Hinv :
    (fun t => over_tls_enable (config t) = true /\
              tls_path_stage (stage t) = true /\
              forallb (fun e => negb (on_outgoing e)) (trace t) = true)
      (final (run turns (init_done_cb inc out parser0 cfg)))).
  { apply run_invariant.
    - intros inc' out' t Ht. exact Ht.
    - intros cb t (Hcfg & Hst & Htr).
      destruct (tls_callback_leaves_outgoing cb t Hcfg Hst) as (Hst' & Hcfg' & Hnew).
      rewrite Hcfg'. repeat split; try assumption.
      rewrite callback_extends_trace, forallb_app, Htr. exact Hnew.
    - repeat split. exact Htls. }
  destruct Hinv as (_ & _ & Hall).
  rewrite forallb_forall in Hall. specialize (Hall _ Hin).
  apply negb_true_iff. exact Hall.
Qed.

(** X17. A callback changes a state of a socket only from done to stop; it
    never changes the result or the buffer of a socket, nor the address of
    the incoming socket, nor the configuration. *)
Theorem callback_keeps_sockets (cb : callback) (t : tunnel_ctx) :
  let t' := final (run_callback cb t) in
  (forall (sk : sock_id) (d : direction),
   state_latch_ok (state_of d (socket_of sk t)) (state_of d (socket_of sk t'))
   = true) /\
  (forall sk : sock_id,
   result (socket_of sk t') = result (socket_of sk t) /\
   buf (socket_of sk t') = buf (socket_of sk t)) /\
  addr (incoming t') = addr (incoming t) /\
  config t' = config t.
Proof.
  cbv zeta.
  open_callback cb t; unfold_all; explore_states;
    (split; [intros [] []; cbn;
             repeat match goal with
                    | |- context [state_latch_ok ?x _] => is_var x; destruct x
                    end;
             reflexivity
            | split; [intros []; cbn; split; reflexivity
                     | split; reflexivity]]).
Qed.

(** X11. [do_next] leaves the tunnel in its stage or moves it to a later
    one, as [stage_successors] lists them: no call leads back to an earlier
    stage, and the stages kill, streaming, tls_streaming and s5_udp_accoc
    are never left.  This holds for every tunnel, every socket and every
    behaviour of the collaborators, faults included. *)
Theorem do_next_stage_steps (s : sock_id) (t : tunnel_ctx) :
  stage_step_ok (stage t) (stage (final (do_next s t))) = true.
Proof.
  destruct t as [[ird iwr ires ibuf iaddr] [ord owr ores obuf oaddr]
                   da ci ip pa st cf tr nb].
  destruct s, st; unfold_all; explore; reflexivity.
Qed.

(** X22. [tunnel_extract_data] gives the bytes of a socket through the
    cipher: what a read that has succeeded (its result is not negative) has
    left on the incoming socket encrypted, on the outgoing socket
    decrypted.  It returns a fresh buffer with the result when the cipher
    succeeds and nothing when it fails, and in both cases releases the
    buffer it worked in.  Feedback from a decryption is not expected here:
    it fails an assertion. *)
Theorem tunnel_extract_data_result (s : sock_id) (t : tunnel_ctx) (c : cipher_ctx) :
  cipher t = Some c ->
  0 <= result (socket_of s t) < 2 ^ size_t_bits ->
  let b := next_block t in
  let input := firstn (Z.to_nat (result (socket_of s t))) (buf (socket_of s t)) in
  let outcome_of (e : ssr_error) (c' : cipher_ctx) (bytes : list byte) :=
    if is_ssr_ok e then
      Ok (Some (mk_buffer_t (S b) bytes))
         (set_trace (trace t ++ [ev_alloc b; ev_alloc (S b); ev_free b])
            (set_next_block (S (S b)) (set_cipher (Some c') t)))
    else
      Ok None
         (set_trace (trace t ++ [ev_alloc b; ev_free b])
            (set_next_block (S b) (set_cipher (Some c') t))) in
  (s = Incoming ->
   forall e c' bytes,
   tunnel_cipher_client_encrypt c input = (e, c', bytes) ->
   tunnel_extract_data s t = outcome_of e c' bytes) /\
  (s = Outgoing ->
   forall e c' bytes,
   tunnel_cipher_client_decrypt c input = (e, c', bytes, None) ->
   tunnel_extract_data s t = outcome_of e c' bytes) /\
  (s = Outgoing ->
   forall e c' bytes feedback,
   tunnel_cipher_client_decrypt c input = (e, c', bytes, Some feedback) ->
   exists t', tunnel_extract_data s t = Fault assertion_failed t').
Proof.
  intros Hc Hres b input outcome_of. subst b input outcome_of. cbv beta.
  pose proof (size_t_cast_small _ Hres) as Hcast. clear Hres.
  split; [| split].
  - intros -> e c' bytes Henc. fields t. unfold_all; cbn.
    rewrite Hcast, take_firstn, Henc. cbn.
    destruct (is_ssr_ok e); cbn; rewrite <- ?app_assoc; reflexivity.
  - intros -> e c' bytes Hdec. fields t. unfold_all; cbn.
    rewrite Hcast, take_firstn, Hdec. cbn.
    destruct (is_ssr_ok e); cbn; rewrite <- ?app_assoc; reflexivity.
  - intros -> e c' bytes feedback Hdec. fields t. unfold_all; cbn.
    rewrite Hcast, take_firstn, Hdec. cbn. eexists. reflexivity.
Qed.

(** X23. A status of the parser that the stage does not expect shuts the
    tunnel down without a reply, even when the read was consumed whole: in
    stage handshake any status other than need-more and auth-select, in
    stage s5_request any status other than need-more and exec-cmd. *)
Theorem unexpected_status_shuts_down (s : sock_id) (t : tunnel_ctx)
    (err : s5_err) (p' : s5_ctx) (n : Z) :
  rdstate (incoming t) = socket_done ->
  quiescent (set_incoming (set_rdstate socket_stop (incoming t)) t) ->
  0 <= result (incoming t) ->
  s5_parse (parser t) (buf (incoming t)) (result (incoming t)) = (err, p', n) ->
  err <> s5_ok ->
  (stage t = tunnel_stage_handshake ->
   err <> s5_auth_select ->
   trace (final (do_next s t)) = trace t ++ [ev_tunnel_shutdown] /\
   stage (final (do_next s t)) = tunnel_stage_handshake) /\
  (stage t = tunnel_stage_s5_request ->
   err <> s5_exec_cmd ->
   trace (final (do_next s t)) =
     trace t ++
     [ev_socks5_address_parse 3 (size_t_sub (result (incoming t)) 3);
      ev_tunnel_shutdown] /\
   stage (final (do_next s t)) = tunnel_stage_s5_request /\
   init_pkg (final (do_next s t)) = init_pkg t).
Proof.
  intros Hrd Hq Hres Hparse Hmore. split.
  - intros Hstage Hsel. fields t. unfold_all; cbn.
    rewrite (proj2 (Z.ltb_ge _ _) Hres). cbn. rewrite Hparse. cbn.
    destruct err; try congruence; cbn; destruct (negb (n =? 0)); cbn;
      split; reflexivity.
  - intros Hstage Hexec. fields t. unfold_all; cbn.
    rewrite (proj2 (Z.ltb_ge _ _) Hres). cbn. rewrite Hparse. cbn.
    destruct err; try congruence; cbn; destruct (negb (n =? 0)); cbn;
      rewrite <- ?app_assoc; repeat split; reflexivity.
Qed.

(** X24. When the connect to the upstream has succeeded, the first bytes
    written to it are the encryption of a clone of [init_pkg], and the
    stage becomes ssr_auth_sent; [init_pkg] itself is kept as it is.  If
    the encryption fails the clone is released and the tunnel shut down,
    and the client gets no reply. *)
Theorem upstream_auth_package (s : sock_id) (t : tunnel_ctx)
    (pkg : buffer_t) (c c' : cipher_ctx) (e : ssr_error) (bytes : list byte) :
  stage t = tunnel_stage_connecting_ssr_server ->
  quiescent t ->
  result (outgoing t) = 0 ->
  init_pkg t = Some pkg ->
  cipher t = Some c ->
  tunnel_cipher_client_encrypt c (buffer pkg) = (e, c', bytes) ->
  let b := next_block t in
  let t' := final (do_next s t) in
  init_pkg t' = Some pkg /\ cipher t' = Some c' /\
  if is_ssr_ok e then
    trace t' =
      trace t ++
      [ev_alloc b; ev_socket_write Outgoing (heap_block b) bytes; ev_free b] /\
    stage t' = tunnel_stage_ssr_auth_sent
  else
    trace t' = trace t ++ [ev_alloc b; ev_free b; ev_tunnel_shutdown] /\
    stage t' = tunnel_stage_connecting_ssr_server.
Proof.
  intros Hstage Hq Hres Hpkg Hc Henc b t'. subst b t'.
  fields t. unfold_all; cbn. rewrite Henc. cbn.
  destruct (is_ssr_ok e); cbn; rewrite <- ?app_assoc; repeat split; reflexivity.
Qed.

Ltac use_cipher_equation :=
  match goal with
  | H : tunnel_cipher_client_encrypt _ _ = _ |- _ => rewrite H
  | H : tunnel_cipher_client_decrypt _ _ = _ |- _ => rewrite H
  end.

Ltac settle_write :=
  cbn;
  first
    [ exact I
    | solve [repeat first [left; reflexivity | right]]
    | left; eexists; split; reflexivity
    | right; reflexivity
    | eexists; split;
      [ reflexivity
      | first
          [ left; eexists; split; [reflexivity | use_cipher_equation; reflexivity]
          | right; use_cipher_equation; reflexivity ] ] ].

(** X25. Whatever a callback writes is one of few things: to the client a
    reply kept as a string literal, the success reply made of [init_pkg] or
    the package for UDP ASSOCIATE; to the upstream and to the TLS transport
    only bytes that have come out of the cipher: the encryption of
    [init_pkg] or of what was read from the client, or the feedback of a
    decryption of what was read from the upstream. *)
Theorem callback_writes_expected (cb : callback) (t : tunnel_ctx) :
  Forall (expected_write t) (new_events t (final (run_callback cb t))).
Proof.
  open_callback cb t; unfold_all; explore; settle_events;
    repeat (apply Forall_cons; [settle_write |]); apply Forall_nil.
Qed.

End Further.

(** ** The further properties on the sample tunnel *)

Lemma io_error_shuts_down_witness :
  trace (final (do_next Incoming
    (sample_tunnel tunnel_stage_handshake (read_done (-4095) []) idle_socket 0 None)))
    = [ev_tunnel_shutdown] /\
  trace (final (do_next Incoming
    (sample_tunnel_of sample_tls_config (sample_parser 0)
       tunnel_stage_auth_complition_done (write_done (-32)) idle_socket (Some false))))
    = [ev_tls_client_shutdown].
Proof.
  split.
  - rewrite (proj1 (@io_error_shuts_down sample Incoming
      (sample_tunnel tunnel_stage_handshake (read_done (-4095) []) idle_socket 0 None)
      Incoming reading eq_refl eq_refl ltac:(cbn; lia)
      (conj eq_refl (conj eq_refl (conj eq_refl eq_refl))))
      (or_introl (or_introl eq_refl))).
    reflexivity.
  - rewrite (proj2 (@io_error_shuts_down sample Incoming
      (sample_tunnel_of sample_tls_config (sample_parser 0)
         tunnel_stage_auth_complition_done (write_done (-32)) idle_socket (Some false))
      Incoming writing eq_refl eq_refl ltac:(cbn; lia)
      (conj eq_refl (conj eq_refl (conj eq_refl eq_refl))))
      (conj eq_refl eq_refl)).
    reflexivity.
Defined.

Lemma feedback_stage_errors_witness :
  trace (final (do_next Outgoing
    (sample_tunnel tunnel_stage_ssr_receipt_of_feedback_sent idle_socket
       (write_done (-32)) 0 (Some true))))
    = [ev_alloc 1;
       ev_socket_write Incoming (heap_block 1)
         ([x05; x00; x00] ++ [x03; x0b] ++ sample_host ++ [x01; xbb]);
       ev_free 1] /\
  trace (final (do_next Outgoing
    (sample_tunnel tunnel_stage_ssr_waiting_feedback idle_socket
       (read_done (-4095) []) 0 (Some true))))
    = [ev_tunnel_shutdown; ev_alloc 1;
       ev_socket_write Incoming (heap_block 1)
         ([x05; x00; x00] ++ [x03; x0b] ++ sample_host ++ [x01; xbb]);
       ev_free 1].
Proof.
  split.
  - rewrite (proj1 (proj1 (@feedback_stage_errors sample Outgoing
      (sample_tunnel tunnel_stage_ssr_receipt_of_feedback_sent idle_socket
         (write_done (-32)) 0 (Some true))
      _ eq_refl eq_refl eq_refl) eq_refl eq_refl eq_refl)).
    reflexivity.
  - rewrite (proj1 (proj2 (@feedback_stage_errors sample Outgoing
      (sample_tunnel tunnel_stage_ssr_waiting_feedback idle_socket
         (read_done (-4095) []) 0 (Some true))
      _ eq_refl eq_refl eq_refl) eq_refl eq_refl eq_refl ltac:(cbn; lia))).
    reflexivity.
Defined.

Lemma request_other_than_connect_witness :
  trace (final (do_next Incoming
    (sample_tunnel_of sample_config (sample_request s5_cmd_tcp_bind)
       tunnel_stage_s5_request (read_done 10 [x05; x02; x00; x01]) idle_socket None)))
    = [ev_socks5_address_parse 3 7; ev_tunnel_shutdown] /\
  trace (final (do_next Incoming
    (set_incoming (write_done 0)
       (sample_tunnel_of sample_config (sample_request s5_cmd_udp_assoc)
          tunnel_stage_s5_udp_accoc idle_socket idle_socket None))))
    = [ev_tunnel_shutdown].
Proof.
  split.
  - pose proof (proj1 (@request_other_than_connect sample Incoming
      (sample_tunnel_of sample_config (sample_request s5_cmd_tcp_bind)
         tunnel_stage_s5_request (read_done 10 [x05; x02; x00; x01]) idle_socket None)
      (sample_request s5_cmd_tcp_bind)
      (conj eq_refl (conj eq_refl (conj eq_refl eq_refl))))
      eq_refl eq_refl ltac:(cbn; lia) eq_refl) as Hbind.
    cbn in Hbind. destruct Hbind as (Htrace & _). exact Htrace.
  - apply (proj2 (@request_other_than_connect sample Incoming
      (sample_tunnel_of sample_config (sample_request s5_cmd_udp_assoc)
         tunnel_stage_s5_udp_accoc idle_socket idle_socket None)
      (sample_request s5_cmd_udp_assoc)
      (conj eq_refl (conj eq_refl (conj eq_refl eq_refl))))
      eq_refl eq_refl (write_done 0) eq_refl).
Defined.

Lemma connect_request_launch_witness :
  trace (final (do_next Incoming
    (sample_tunnel_of sample_config (sample_request s5_cmd_tcp_connect)
       tunnel_stage_s5_request (read_done 10 [x05; x01; x00; x01]) idle_socket None)))
    = [ev_socks5_address_parse 3 7; ev_alloc 1;
       ev_socket_connect Outgoing sample_upstream] /\
  trace (final (do_next Incoming
    (sample_tunnel_of sample_tls_config (sample_request s5_cmd_tcp_connect)
       tunnel_stage_s5_request (read_done 10 [x05; x01; x00; x01]) idle_socket None)))
    = [ev_socks5_address_parse 3 7; ev_alloc 1; ev_tls_client_launch].
Proof.
  split.
  - pose proof (@connect_request_launch sample Incoming
      (sample_tunnel_of sample_config (sample_request s5_cmd_tcp_connect)
         tunnel_stage_s5_request (read_done 10 [x05; x01; x00; x01]) idle_socket None)
      (sample_request s5_cmd_tcp_connect)
      eq_refl eq_refl (conj eq_refl (conj eq_refl (conj eq_refl eq_refl)))
      ltac:(cbn; lia) eq_refl eq_refl) as Hraw.
    cbn in Hraw. destruct Hraw as (_ & _ & _ & Htrace & _). exact Htrace.
  - pose proof (@connect_request_launch sample Incoming
      (sample_tunnel_of sample_tls_config (sample_request s5_cmd_tcp_connect)
         tunnel_stage_s5_request (read_done 10 [x05; x01; x00; x01]) idle_socket None)
      (sample_request s5_cmd_tcp_connect)
      eq_refl eq_refl (conj eq_refl (conj eq_refl (conj eq_refl eq_refl)))
      ltac:(cbn; lia) eq_refl eq_refl) as Htls.
    cbn in Htls. destruct Htls as (_ & _ & Htrace & _). exact Htrace.
Defined.

Lemma resolved_port_patched_witness :
  trace (final (do_next Outgoing
    (sample_tunnel tunnel_stage_resolve_ssr_server_host_done idle_socket
       (resolved 0 (sockaddr_in [x08; x08; x08; x08] 0)) 0 None)))
    = [ev_socket_connect Outgoing sample_upstream].
Proof.
  pose proof (@resolved_port_patched sample Outgoing
    (sample_tunnel tunnel_stage_resolve_ssr_server_host_done idle_socket
       (resolved 0 (sockaddr_in [x08; x08; x08; x08] 0)) 0 None)
    eq_refl (conj eq_refl (conj eq_refl (conj eq_refl eq_refl)))
    ltac:(cbn; lia)) as Hpatch.
  cbn in Hpatch. destruct Hpatch as (_ & Hconnect).
  destruct (Hconnect eq_refl eq_refl) as (Htrace & _). exact Htrace.
Defined.

Lemma tls_streaming_turn_witness :
  trace (final (do_next Incoming
    (sample_tunnel_of sample_tls_config (sample_parser 0)
       tunnel_stage_tls_streaming (read_done 2 [x68; x69]) idle_socket (Some false))))
    = [ev_alloc 1; ev_alloc 2; ev_free 1;
       ev_tls_send_data (heap_block 2) [x68; x69]; ev_free 2;
       ev_socket_read Incoming false].
Proof.
  destruct (proj2 (@tls_streaming_turn sample
      (sample_tunnel_of sample_tls_config (sample_parser 0)
         tunnel_stage_tls_streaming (read_done 2 [x68; x69]) idle_socket (Some false))
      false eq_refl eq_refl)
      eq_refl ltac:(discriminate) ltac:(cbn; lia) ssr_ok false [x68; x69] eq_refl)
    as (Htrace & _).
  exact Htrace.
Defined.

Lemma tls_first_package_exchange_witness :
  trace (final (tunnel_tls_on_connection_established
    (sample_tunnel_of sample_tls_config (sample_parser 0)
       tunnel_stage_tls_connecting idle_socket idle_socket (Some false))))
    = [ev_alloc 1;
       ev_tls_send_data (heap_block 1) ([x03; x0b] ++ sample_host ++ [x01; xbb]);
       ev_free 1] /\
  tunnel_tls_on_data_received [x01]
    (sample_tunnel_of sample_tls_config (sample_parser 0)
       tunnel_stage_tls_streaming idle_socket idle_socket (Some false))
    = Fault assertion_failed
        (sample_tunnel_of sample_tls_config (sample_parser 0)
           tunnel_stage_tls_streaming idle_socket idle_socket (Some false)).
Proof.
  split.
  - destruct (proj1 (@tls_first_package_exchange sample
        (sample_tunnel_of sample_tls_config (sample_parser 0)
           tunnel_stage_tls_connecting idle_socket idle_socket (Some false))
        _ false [x01]
        (conj eq_refl (conj eq_refl (conj eq_refl eq_refl))) eq_refl eq_refl)
        ssr_ok false _ eq_refl) as (Htrace & _).
    exact Htrace.
  - apply (proj2 (proj2 (@tls_first_package_exchange sample
        (sample_tunnel_of sample_tls_config (sample_parser 0)
           tunnel_stage_tls_streaming idle_socket idle_socket (Some false))
        _ false [x01]
        (conj eq_refl (conj eq_refl (conj eq_refl eq_refl))) eq_refl eq_refl))).
    discriminate.
Defined.

Lemma shutdown_is_last_witness :
  shutdown_alone
    (new_events
       (sample_tunnel_of sample_config (sample_request s5_cmd_tcp_bind)
          tunnel_stage_s5_request (read_done 10 [x05; x02; x00; x01]) idle_socket None)
       (final (run_callback (tunnel_read_done Incoming)
          (sample_tunnel_of sample_config (sample_request s5_cmd_tcp_bind)
             tunnel_stage_s5_request (read_done 10 [x05; x02; x00; x01])
             idle_socket None))))
  = true.
Proof.
  apply (@shutdown_is_last sample). intros Hstage. discriminate Hstage.
Defined.

Lemma kill_only_after_refusal_witness :
  stage (final (run_callback (tunnel_getaddrinfo_done Outgoing)
    (sample_tunnel tunnel_stage_resolve_ssr_server_host_done idle_socket
       (resolved (-3008) (sockaddr_other 0)) 0 None)))
    = tunnel_stage_kill /\
  last_event_is is_refusal
    (new_events
       (sample_tunnel tunnel_stage_resolve_ssr_server_host_done idle_socket
          (resolved (-3008) (sockaddr_other 0)) 0 None)
       (final (run_callback (tunnel_getaddrinfo_done Outgoing)
          (sample_tunnel tunnel_stage_resolve_ssr_server_host_done idle_socket
             (resolved (-3008) (sockaddr_other 0)) 0 None))))
  = true.
Proof.
  split; [reflexivity |].
  destruct (@kill_only_after_refusal sample (tunnel_getaddrinfo_done Outgoing)
      (sample_tunnel tunnel_stage_resolve_ssr_server_host_done idle_socket
         (resolved (-3008) (sockaddr_other 0)) 0 None) eq_refl)
    as [Hkill | Hlast].
  - discriminate Hkill.
  - exact Hlast.
Defined.

Lemma fault_before_io_witness :
  forallb (fun e => negb (is_io e))
    (new_events
       (sample_tunnel tunnel_stage_ssr_waiting_feedback idle_socket
          (read_done 2 [x0a; x0b]) 0 None)
       (final (run_callback (tunnel_read_done Outgoing)
          (sample_tunnel tunnel_stage_ssr_waiting_feedback idle_socket
             (read_done 2 [x0a; x0b]) 0 None))))
  = true.
Proof.
  apply (@fault_before_io sample). reflexivity.
Defined.

Lemma debug_build_never_denies_witness :
  ~ In (ev_socket_write Incoming string_literal
          [x05; x02; x00; x01; x00; x00; x00; x00; x00; x00])
       (trace (final (@run sample_debug sample_turns
          (init_done_cb idle_socket idle_socket (sample_parser 17) sample_config)))).
Proof.
  apply (@debug_build_never_denies sample_debug). reflexivity.
Defined.

Lemma tls_never_uses_outgoing_witness :
  In ev_tls_client_launch
     (trace (final (@run sample sample_turns
        (init_done_cb idle_socket idle_socket (sample_parser 17) sample_tls_config)))) /\
  on_outgoing ev_tls_client_launch = false.
Proof.
  assert (Hin : In ev_tls_client_launch
     (trace (final (@run sample sample_turns
        (init_done_cb idle_socket idle_socket (sample_parser 17) sample_tls_config))))).
  { cbn. do 4 right. left. reflexivity. }
  split; [exact Hin |].
  exact (@tls_never_uses_outgoing sample idle_socket idle_socket (sample_parser 17)
           sample_tls_config sample_turns ev_tls_client_launch eq_refl Hin).
Defined.

Lemma tunnel_extract_data_result_witness :
  trace (final (tunnel_extract_data Incoming
    (sample_tunnel tunnel_stage_streaming (read_done 3 [x01; x02; x03; x04])
       idle_socket 0 (Some false))))
    = [ev_alloc 1; ev_alloc 2; ev_free 1] /\
  is_fault (tunnel_extract_data Outgoing
    (sample_tunnel tunnel_stage_streaming idle_socket (read_done 2 [x0a; x0b])
       0 (Some true)))
    = true.
Proof.
  split.
  - rewrite (proj1 (@tunnel_extract_data_result sample Incoming
      (sample_tunnel tunnel_stage_streaming (read_done 3 [x01; x02; x03; x04])
         idle_socket 0 (Some false))
      false eq_refl ltac:(cbn; lia)) eq_refl ssr_ok false [x01; x02; x03] eq_refl).
    reflexivity.
  - destruct (proj2 (proj2 (@tunnel_extract_data_result sample Outgoing
      (sample_tunnel tunnel_stage_streaming idle_socket (read_done 2 [x0a; x0b])
         0 (Some true))
      true eq_refl ltac:(cbn; lia))) eq_refl ssr_ok true [] [x01] eq_refl)
      as [t' Hfault].
    rewrite Hfault. reflexivity.
Defined.

Lemma unexpected_status_shuts_down_witness :
  trace (final (do_next Incoming
    (sample_tunnel tunnel_stage_handshake (read_done 3 [x05; x01; x00])
       idle_socket 64 None)))
    = [ev_tunnel_shutdown] /\
  trace (final (do_next Incoming
    (sample_tunnel tunnel_stage_s5_request (read_done 3 [x05; x01; x00])
       idle_socket 64 None)))
    = [ev_socks5_address_parse 3 0; ev_tunnel_shutdown].
Proof.
  split.
  - rewrite (proj1 (proj1 (@unexpected_status_shuts_down sample Incoming
      (sample_tunnel tunnel_stage_handshake (read_done 3 [x05; x01; x00])
         idle_socket 64 None)
      (s5_parse_error (-1)) (sample_parser 64) 0
      eq_refl (conj eq_refl (conj eq_refl (conj eq_refl eq_refl)))
      ltac:(cbn; lia) eq_refl ltac:(discriminate))
      eq_refl ltac:(discriminate))).
    reflexivity.
  - rewrite (proj1 (proj2 (@unexpected_status_shuts_down sample Incoming
      (sample_tunnel tunnel_stage_s5_request (read_done 3 [x05; x01; x00])
         idle_socket 64 None)
      (s5_parse_error (-1)) (sample_parser 64) 0
      eq_refl (conj eq_refl (conj eq_refl (conj eq_refl eq_refl)))
      ltac:(cbn; lia) eq_refl ltac:(discriminate))
      eq_refl ltac:(discriminate))).
    reflexivity.
Defined.

Lemma upstream_auth_package_witness :
  trace (final (do_next Outgoing
    (sample_tunnel tunnel_stage_connecting_ssr_server idle_socket idle_socket
       0 (Some false))))
    = [ev_alloc 1;
       ev_socket_write Outgoing (heap_block 1)
         ([x03; x0b] ++ sample_host ++ [x01; xbb]);
       ev_free 1] /\
  stage (final (do_next Outgoing
    (sample_tunnel tunnel_stage_connecting_ssr_server idle_socket idle_socket
       0 (Some false))))
    = tunnel_stage_ssr_auth_sent.
Proof.
  exact (proj2 (proj2 (@upstream_auth_package sample Outgoing
    (sample_tunnel tunnel_stage_connecting_ssr_server idle_socket idle_socket
       0 (Some false))
    (mk_buffer_t 0 (initial_package_create (sample_parser 0))) false false ssr_ok
    (initial_package_create (sample_parser 0))
    eq_refl (conj eq_refl (conj eq_refl (conj eq_refl eq_refl)))
    eq_refl eq_refl eq_refl eq_refl))).
Defined.
